(** * Sentiment classification and crisis scoring of the chat edge function

    A shallow embedding of [supabase/functions/chat/enhanced_edge_function.ts]:
    the class [EnhancedSentimentAnalyzer], the function [detectCrisisLevel]
    and the crisis-flag expression of the request handler.

    Conventions of the embedding.
    - A JavaScript string is a Rocq [string]; each character stands for one
      UTF-16 code unit in the range 0..255 (ASCII and Latin-1).
    - A JavaScript number that only ever holds an integer is a [Z]; a number
      obtained by a division is an exact rational [Q].  The source compares
      such numbers only with 0.1, 0.3, 80, 90 and 100: a ratio of word counts
      with 0.1, a ratio with a denominator of at most 12 with 0.3 (never equal
      to it), and a number of thirds plus a multiple of 5 with 80, 90 and 100.
      On these the comparisons of doubles give the exact answers (for the
      first one, as long as a text has fewer than 10^15 words); the value of a
      double itself can differ from the rational in its last place.
    - Where a property turns on the value of the confidence itself, the
      division, the scaling, the boosts and the cap are repeated on binary64
      floats ([combineSentiments64], [calculateConfidence64],
      [analyzeSentiment64]), with the rounding of the source.
    - An object used as a dictionary is an association list in insertion
      order, which is the order [Object.entries] enumerates string keys in.
    - An exception is the [Throw] case of [JS.result]. *)

From Stdlib Require Import List String Ascii Bool ZArith QArith Lia.
From Stdlib Require Import Permutation.
From Stdlib Require PrimFloat Uint63 FloatOps SpecFloat.
Import PrimFloat.PrimFloatNotations.
Import ListNotations.

Local Open Scope string_scope.
Local Open Scope Z_scope.

(** ** JavaScript primitives used by the source *)

Module JS.

Inductive error : Type :=
| TypeError (message : string).

Inductive result (A : Type) : Type :=
| Ok (value : A)
| Throw (e : error).

Arguments Ok {A} value.
Arguments Throw {A} e.

Definition bind {A B : Type} (m : result A) (k : A -> result B) : result B :=
  match m with
  | Ok a => k a
  | Throw e => Throw e
  end.

(** *** Characters *)

Definition code (c : ascii) : N := N_of_ascii c.

Definition between (lo hi : N) (c : ascii) : bool :=
  ((lo <=? code c) && (code c <=? hi))%N.

(** [\s]: TAB, LF, VT, FF, CR, SPACE and NO-BREAK SPACE are the white space
    and line terminator code units below 256. *)
Definition is_space (c : ascii) : bool :=
  match code c with
  | 9%N | 10%N | 11%N | 12%N | 13%N | 32%N | 160%N => true
  | _ => false
  end.

(** [[a-zA-Z]] *)
Definition is_letter (c : ascii) : bool :=
  between 97 122 c || between 65 90 c.

(** [String.prototype.toLowerCase] on one code unit: A-Z, and the Latin-1
    capitals U+00C0..U+00DE except the multiplication sign U+00D7. *)
Definition lower_char (c : ascii) : ascii :=
  if between 65 90 c || between 192 214 c || between 216 222 c
  then ascii_of_N (code c + 32)
  else c.

(** *** Strings *)

Fixpoint toLowerCase (s : string) : string :=
  match s with
  | EmptyString => EmptyString
  | String c s' => String (lower_char c) (toLowerCase s')
  end.

(** [s.includes(sub)] *)
Fixpoint includes (s sub : string) : bool :=
  match s with
  | EmptyString => prefix sub EmptyString
  | String _ s' => prefix sub s || includes s' sub
  end.

(** [s.split(sep)] for a one-character separator; [word] is the piece
    being read. *)
Fixpoint split_from (sep : ascii) (word s : string) : list string :=
  match s with
  | EmptyString => [word]
  | String c s' =>
      if Ascii.eqb c sep
      then word :: split_from sep EmptyString s'
      else split_from sep (word ++ String c EmptyString) s'
  end.

Definition split (s : string) (sep : ascii) : list string :=
  split_from sep EmptyString s.

(** [s.replace(/[^...]/g, '')]: drops every character outside the class. *)
Fixpoint remove_outside (keep : ascii -> bool) (s : string) : string :=
  match s with
  | EmptyString => EmptyString
  | String c s' =>
      if keep c then String c (remove_outside keep s')
      else remove_outside keep s'
  end.

(** [s.replace(/\s+/g, ' ')]: every maximal run of white space becomes one
    space; [in_run] says that the previous character was white space. *)
Fixpoint replace_space_runs (in_run : bool) (s : string) : string :=
  match s with
  | EmptyString => EmptyString
  | String c s' =>
      if is_space c
      then (if in_run then replace_space_runs true s'
            else String " " (replace_space_runs true s'))
      else String c (replace_space_runs false s')
  end.

Fixpoint trimStart (s : string) : string :=
  match s with
  | EmptyString => EmptyString
  | String c s' => if is_space c then trimStart s' else s
  end.

Fixpoint trimEnd (s : string) : string :=
  match s with
  | EmptyString => EmptyString
  | String c s' =>
      match trimEnd s' with
      | EmptyString => if is_space c then EmptyString else String c EmptyString
      | t => String c t
      end
  end.

Definition trim (s : string) : string := trimEnd (trimStart s).

(** [arr.includes(x)] on an array of strings *)
Definition array_includes (arr : list string) (x : string) : bool :=
  existsb (String.eqb x) arr.

(** *** Regular expressions of the shape [/head (a|b|c)/i]

    Every pattern of the source is a literal head followed by one group of
    literal alternatives, with the ignore-case flag.  The head and the
    alternatives are lower-case ASCII, so matching while ignoring case is
    substring search in the lower-cased subject. *)
Record regexp : Type := RegExp { head : string; alternatives : list string }.

Definition test (re : regexp) (s : string) : bool :=
  existsb (fun alt => includes (toLowerCase s) (head re ++ alt))
          (alternatives re).

(** *** Numbers *)

Definition Qgtb (x y : Q) : bool := negb (Qle_bool x y).
Definition Qltb (x y : Q) : bool := negb (Qle_bool y x).

Definition Math_min (x y : Q) : Q := if Qle_bool x y then x else y.

(** [x > y] where either side may be [undefined] (a missing property):
    the comparison with [undefined] is false. *)
Definition gt (x y : option Z) : bool :=
  match x, y with
  | Some a, Some b => b <? a
  | _, _ => false
  end.

(** *** Arrays *)

(** [arr.reduce(f)] without an initial value. *)
Definition reduce {A : Type} (f : A -> A -> A) (arr : list A) : result A :=
  match arr with
  | [] => Throw (TypeError "Reduce of empty array with no initial value")
  | first :: rest => Ok (fold_left f rest first)
  end.

(** *** Objects used as dictionaries *)

Section Obj.
Context {K V : Type} (eqb : K -> K -> bool).

Definition obj : Type := list (K * V).

(** [o[k]], [None] being [undefined] *)
Fixpoint get (o : obj) (k : K) : option V :=
  match o with
  | [] => None
  | (k', v) :: o' => if eqb k k' then Some v else get o' k
  end.

(** [o[k] = v]: an existing key keeps its place, a new key goes last. *)
Fixpoint set (o : obj) (k : K) (v : V) : obj :=
  match o with
  | [] => [(k, v)]
  | (k', v') :: o' =>
      if eqb k k' then (k, v) :: o' else (k', v') :: set o' k v
  end.

Definition keys (o : obj) : list K := map fst o.
Definition entries (o : obj) : list (K * V) := o.
End Obj.

End JS.

Import JS.

Notation "x <- m ;; k" := (JS.bind m (fun x => k))
  (at level 61, m at next level, right associativity).

(** ** Labels

    The source writes labels as string literals.  The three scorers, the two
    lexicons and the two defaults only ever produce the literals below, so
    each family of labels is an enumeration. *)

Module Sentiment.
Inductive t : Type := positive | negative | neutral.

Definition eqb (a b : t) : bool :=
  match a, b with
  | positive, positive | negative, negative | neutral, neutral => true
  | _, _ => false
  end.

End Sentiment.

Module Emotion.
Inductive t : Type :=
| anxiety | depression | anger | happiness | loneliness | suicidal | neutral.

Definition eqb (a b : t) : bool :=
  match a, b with
  | anxiety, anxiety | depression, depression | anger, anger
  | happiness, happiness | loneliness, loneliness | suicidal, suicidal
  | neutral, neutral => true
  | _, _ => false
  end.

End Emotion.

Module Intent.
Inductive t : Type :=
| help_request | greeting | gratitude | meditation | sleep | general.

Definition eqb (a b : t) : bool :=
  match a, b with
  | help_request, help_request | greeting, greeting | gratitude, gratitude
  | meditation, meditation | sleep, sleep | general, general => true
  | _, _ => false
  end.

End Intent.

(** ** Results of the scorers

    The three scorers return objects of three shapes; [combineSentiments]
    reads only their [sentiment] property. *)

Inductive Score : Type :=
| VaderScore (sentiment : Sentiment.t) (compound : Q) (positive negative : Z)
| KeywordScore (sentiment : Sentiment.t) (score : Q)
| PatternScore (sentiment : Sentiment.t) (confidence : Q).

Definition sentiment_of (s : Score) : Sentiment.t :=
  match s with
  | VaderScore l _ _ _ | KeywordScore l _ | PatternScore l _ => l
  end.

Module Combined.
Record t : Type := Build { sentiment : Sentiment.t; confidence : Q }.
End Combined.

Module Scores.
Record t : Type :=
  Build { vader : Score; keyword : Score; pattern : Score;
          combined : Combined.t }.
End Scores.

Module Analysis.
Record t : Type :=
  Build { sentiment : Sentiment.t;
          emotion : Emotion.t;
          intent : Intent.t;
          confidence : Q;
          scores : Scores.t }.
End Analysis.

(** The literal [{ positive: 0, negative: 0, neutral: 0 }] of
    [combineSentiments] and its increment [sentimentCounts[label]++]. *)
Module Counts.
Record t : Type := Build { positive : Z; negative : Z; neutral : Z }.

Definition incr (c : t) (label : Sentiment.t) : t :=
  match label with
  | Sentiment.positive => Build (positive c + 1) (negative c) (neutral c)
  | Sentiment.negative => Build (positive c) (negative c + 1) (neutral c)
  | Sentiment.neutral => Build (positive c) (negative c) (neutral c + 1)
  end.
End Counts.

(** ** The lexicon store *)

Definition emotionKeywords : list (Emotion.t * list string) :=
  [ (Emotion.anxiety,
      ["anxious"; "worried"; "nervous"; "scared"; "fear"; "panic"; "stress";
       "overwhelmed"]);
    (Emotion.depression,
      ["sad"; "depressed"; "hopeless"; "worthless"; "empty"; "tired";
       "exhausted"; "down"]);
    (Emotion.anger,
      ["angry"; "mad"; "furious"; "irritated"; "frustrated"; "hate"; "rage"]);
    (Emotion.happiness,
      ["happy"; "joy"; "excited"; "pleased"; "content"; "grateful";
       "blessed"]);
    (Emotion.loneliness,
      ["alone"; "lonely"; "isolated"; "abandoned"; "left out"; "no one"]);
    (Emotion.suicidal,
      ["suicide"; "kill myself"; "end it all"; "want to die";
       "better off dead"; "no point"]) ].

Definition intentKeywords : list (Intent.t * list string) :=
  [ (Intent.help_request, ["help"; "support"; "need"; "struggling"; "crisis"]);
    (Intent.greeting, ["hello"; "hi"; "how are you"; "feeling"; "doing"]);
    (Intent.gratitude, ["thank"; "thanks"; "appreciate"; "grateful"]);
    (Intent.meditation,
      ["meditate"; "breathing"; "calm"; "relax"; "mindfulness"]);
    (Intent.sleep, ["sleep"; "insomnia"; "tired"; "rest"; "bed"]);
    (Intent.general, ["general"; "talk"; "chat"; "conversation"]) ].

(** ** [class EnhancedSentimentAnalyzer] *)

Definition cleanText (text : string) : string :=
  trim (replace_space_runs false
          (remove_outside (fun c => is_letter c || is_space c)
             (toLowerCase text))).

Definition vaderSentiment (text : string) : Score :=
  let positiveWords :=
    ["good"; "great"; "wonderful"; "excellent"; "amazing"; "love"; "joy";
     "happy"; "blessed"] in
  let negativeWords :=
    ["bad"; "terrible"; "awful"; "hate"; "angry"; "depressed"; "suicidal";
     "sad"; "hopeless"] in
  let words := split text " " in
  let '(positiveCount, negativeCount) :=
    fold_left
      (fun '(positiveCount, negativeCount) word =>
         (if array_includes positiveWords word
          then positiveCount + 1 else positiveCount,
          if array_includes negativeWords word
          then negativeCount + 1 else negativeCount))
      words (0, 0) in
  let compound :=
    (inject_Z (positiveCount - negativeCount) /
     inject_Z (Z.max (Z.of_nat (List.length words)) 1))%Q in
  VaderScore
    (if Qgtb compound 0.1 then Sentiment.positive
     else if Qltb compound (-0.1) then Sentiment.negative
     else Sentiment.neutral)
    compound positiveCount negativeCount.

(** The loop [keywords.forEach(k => { if (text.includes(k)) score += 1 })],
    which the keyword scorer and both detectors run. *)
Definition count_included (text : string) (keywords : list string) : Z :=
  fold_left (fun score keyword =>
               if includes text keyword then score + 1 else score)
            keywords 0.

Definition keywordSentiment (text : string) : Score :=
  let positiveKeywords :=
    ["happy"; "good"; "great"; "wonderful"; "excited"; "grateful"] in
  let negativeKeywords :=
    ["sad"; "bad"; "terrible"; "depressed"; "angry"; "suicidal"] in
  let positiveScore := count_included text positiveKeywords in
  let negativeScore := count_included text negativeKeywords in
  let total := positiveScore + negativeScore in
  if total =? 0 then KeywordScore Sentiment.neutral 0
  else
    let score := (inject_Z (positiveScore - negativeScore) / inject_Z total)%Q in
    KeywordScore
      (if Qgtb score 0.3 then Sentiment.positive
       else if Qltb score (-0.3) then Sentiment.negative
       else Sentiment.neutral)
      score.

Definition count_matches (patterns : list regexp) (text : string) : Z :=
  fold_left (fun matches pattern =>
               if test pattern text then matches + 1 else matches)
            patterns 0.

Definition patternSentiment (text : string) : Score :=
  let positive :=
    [ RegExp "i feel " ["good"; "great"; "wonderful"; "happy"; "blessed"];
      RegExp "i am " ["happy"; "excited"; "grateful"; "content"];
      RegExp "things are " ["good"; "great"; "wonderful"] ] in
  let negative :=
    [ RegExp "i feel " ["sad"; "bad"; "terrible"; "hopeless"; "worthless"];
      RegExp "i am " ["sad"; "depressed"; "angry"; "lonely"];
      RegExp "things are " ["bad"; "terrible"; "awful"];
      RegExp "i want to " ["die"; "kill myself"; "end it all"] ] in
  let positiveMatches := count_matches positive text in
  let negativeMatches := count_matches negative text in
  if negativeMatches <? positiveMatches then
    PatternScore Sentiment.positive
      (inject_Z positiveMatches / inject_Z (positiveMatches + negativeMatches))%Q
  else if positiveMatches <? negativeMatches then
    PatternScore Sentiment.negative
      (inject_Z negativeMatches / inject_Z (positiveMatches + negativeMatches))%Q
  else PatternScore Sentiment.neutral 0.5.

(** [Math.max] of the three counters. *)
Definition Math_max3 (a b c : Z) : Z := Z.max a (Z.max b c).

(** [maxCount / scores.length] is an exact rational; for the empty array,
    where JavaScript yields [NaN], it is 0 here.  The analyzer always passes
    three scores. *)
Definition combineSentiments (scores : list Score) : Combined.t :=
  let sentimentCounts :=
    fold_left (fun counts score => Counts.incr counts (sentiment_of score))
              scores (Counts.Build 0 0 0) in
  let maxCount :=
    Math_max3 (Counts.positive sentimentCounts)
              (Counts.negative sentimentCounts)
              (Counts.neutral sentimentCounts) in
  let confidence :=
    (inject_Z maxCount / inject_Z (Z.of_nat (List.length scores)))%Q in
  if Counts.positive sentimentCounts =? maxCount
  then Combined.Build Sentiment.positive confidence
  else if Counts.negative sentimentCounts =? maxCount
  then Combined.Build Sentiment.negative confidence
  else Combined.Build Sentiment.neutral confidence.

(** [detectEmotion] and [detectIntent] have the same body up to the names of
    the lexicon and of the default label; [detect] is that body. *)
Section Detect.
Context {K : Type} (eqb : K -> K -> bool).

Definition score_table (lexicon : list (K * list string)) (text : string)
  : obj (K := K) (V := Z) :=
  fold_left
    (fun scores '(category, keywords) =>
       let score := count_included text keywords in
       if 0 <? score then set eqb scores category score else scores)
    lexicon [].

(** The callback [(a, b) => scores[a[0]] > scores[b[0]] ? a : b]. *)
Definition higher (scores : obj (K := K) (V := Z)) (a b : K * Z) : K * Z :=
  if gt (get eqb scores (fst a)) (get eqb scores (fst b)) then a else b.

Definition detect (lexicon : list (K * list string)) (default : K)
           (text : string) : result K :=
  let scores := score_table lexicon text in
  if (List.length (keys scores) =? 0)%nat then Ok default
  else
    best <- reduce (higher scores) (entries scores) ;;
    Ok (fst best).
End Detect.

Definition detectEmotion (text : string) : result Emotion.t :=
  detect Emotion.eqb emotionKeywords Emotion.neutral text.

Definition detectIntent (text : string) : result Intent.t :=
  detect Intent.eqb intentKeywords Intent.general text.

Definition calculateConfidence (sentiment : Combined.t) (emotion : Emotion.t)
           (intent : Intent.t) : Q :=
  let confidence := (Combined.confidence sentiment * 100)%Q in
  let confidence :=
    if Emotion.eqb emotion Emotion.suicidal
    then (confidence + 20)%Q else confidence in
  let confidence :=
    if Emotion.eqb emotion Emotion.depression
       || Emotion.eqb emotion Emotion.anxiety
    then (confidence + 10)%Q else confidence in
  let confidence :=
    if Intent.eqb intent Intent.help_request
    then (confidence + 15)%Q else confidence in
  let confidence :=
    if Intent.eqb intent Intent.meditation || Intent.eqb intent Intent.sleep
    then (confidence + 10)%Q else confidence in
  Math_min confidence 100.

Definition analyzeSentiment (text : string) : result Analysis.t :=
  let cleanedText := cleanText text in
  let vaderScore := vaderSentiment cleanedText in
  let keywordScore := keywordSentiment cleanedText in
  let patternScore := patternSentiment cleanedText in
  let combinedSentiment :=
    combineSentiments [vaderScore; keywordScore; patternScore] in
  emotion <- detectEmotion cleanedText ;;
  intent <- detectIntent cleanedText ;;
  let confidence := calculateConfidence combinedSentiment emotion intent in
  Ok (Analysis.Build (Combined.sentiment combinedSentiment) emotion intent
        confidence
        (Scores.Build vaderScore keywordScore patternScore combinedSentiment)).

(** *** The conversation aggregator *)

Module Message.
Record t : Type := Build { sender_type : string; content : string }.
End Message.

Module Trend.
Record t : Type :=
  Build { sentiment_distribution : obj (K := Sentiment.t) (V := Z);
          emotion_distribution : obj (K := Emotion.t) (V := Z);
          dominant_sentiment : Sentiment.t;
          dominant_emotion : Emotion.t;
          message_count : Z }.
End Trend.

(** [x || 0] for a counter read from an object. *)
Definition or_zero (x : option Z) : Z :=
  match x with
  | Some n => n
  | None => 0
  end.

Section Dominant.
Context {K : Type} (eqb : K -> K -> bool).

Definition countOccurrences (arr : list K) : obj (K := K) (V := Z) :=
  fold_left (fun acc val => set eqb acc val (or_zero (get eqb acc val) + 1))
            arr [].

Definition getDominant (counts : obj (K := K) (V := Z)) : result K :=
  best <- reduce (higher eqb counts) (entries counts) ;;
  Ok (fst best).
End Dominant.

(** The loop over [messages]; its state is the pair of arrays [sentiments]
    and [emotions], to which [push] appends. *)
Definition collect_user_labels (messages : list Message.t)
  : result (list Sentiment.t * list Emotion.t) :=
  fold_left
    (fun state message =>
       arrays <- state ;;
       let '(sentiments, emotions) := arrays in
       if String.eqb (Message.sender_type message) "user" then
         analysis <- analyzeSentiment (Message.content message) ;;
         Ok (sentiments ++ [Analysis.sentiment analysis],
             emotions ++ [Analysis.emotion analysis])%list
       else Ok (sentiments, emotions))
    messages (Ok ([], [])).

(** [None] is the value [null]. *)
Definition analyzeConversationHistory (messages : list Message.t)
  : result (option Trend.t) :=
  if (List.length messages =? 0)%nat then Ok None
  else
    arrays <- collect_user_labels messages ;;
    let '(sentiments, emotions) := arrays in
    let sentimentCounts := countOccurrences Sentiment.eqb sentiments in
    let emotionCounts := countOccurrences Emotion.eqb emotions in
    dominant_sentiment <- getDominant Sentiment.eqb sentimentCounts ;;
    dominant_emotion <- getDominant Emotion.eqb emotionCounts ;;
    Ok (Some (Trend.Build sentimentCounts emotionCounts
                dominant_sentiment dominant_emotion
                (Z.of_nat (List.length messages)))).

(** ** [detectCrisisLevel] and the crisis flag of the request handler *)

Definition detectCrisisLevel (analysis : Analysis.t) : Z :=
  let level := 0 in
  let level :=
    if Sentiment.eqb (Analysis.sentiment analysis) Sentiment.negative
    then level + 1 else level in
  let level :=
    if Sentiment.eqb (Analysis.sentiment analysis) Sentiment.positive
    then level - 1 else level in
  let level :=
    match Analysis.emotion analysis with
    | Emotion.suicidal => level + 5
    | Emotion.depression => level + 3
    | Emotion.anxiety => level + 2
    | Emotion.anger => level + 2
    | Emotion.loneliness => level + 1
    | _ => level
    end in
  let level :=
    if Qgtb (Analysis.confidence analysis) 80 then level + 1 else level in
  let level :=
    if Qgtb (Analysis.confidence analysis) 90 then level + 1 else level in
  let level :=
    if Intent.eqb (Analysis.intent analysis) Intent.help_request
    then level + 1 else level in
  Z.max 0 (Z.min level 5).

(** The handler stores a flag only [if (crisisLevel > 0)], with
    [flag_type: crisisLevel >= 5 ? 'suicidal' : 'crisis']. *)
Definition crisis_flag_type (crisisLevel : Z) : option string :=
  if 0 <? crisisLevel
  then Some (if 5 <=? crisisLevel then "suicidal" else "crisis")
  else None.

(** ** The confidence in double precision

    [combineSentiments] divides one count by another and
    [calculateConfidence] multiplies the quotient by 100, adds the boosts and
    caps the sum at 100; in the source each of these steps is an operation
    on doubles and rounds.  The definitions below are the same functions
    with binary64 floats for these numbers.  The labels do not depend on the
    rounding and are computed as before. *)

(** The double that holds an integer; exact from 0 up to 2^53. *)
Definition number (z : Z) : PrimFloat.float :=
  PrimFloat.of_uint63 (Uint63.of_Z z).

(** [Math.min] on doubles. *)
Definition Math_min64 (x y : PrimFloat.float) : PrimFloat.float :=
  if PrimFloat.is_nan x || PrimFloat.is_nan y then PrimFloat.nan
  else if (x <=? y)%float then x else y.

Module Combined64.
Record t : Type :=
  Build { sentiment : Sentiment.t; confidence : PrimFloat.float }.
End Combined64.

Module Scores64.
Record t : Type :=
  Build { vader : Score; keyword : Score; pattern : Score;
          combined : Combined64.t }.
End Scores64.

Module Analysis64.
Record t : Type :=
  Build { sentiment : Sentiment.t;
          emotion : Emotion.t;
          intent : Intent.t;
          confidence : PrimFloat.float;
          scores : Scores64.t }.
End Analysis64.

Definition combineSentiments64 (scores : list Score) : Combined64.t :=
  let sentimentCounts :=
    fold_left (fun counts score => Counts.incr counts (sentiment_of score))
              scores (Counts.Build 0 0 0) in
  let maxCount :=
    Math_max3 (Counts.positive sentimentCounts)
              (Counts.negative sentimentCounts)
              (Counts.neutral sentimentCounts) in
  let confidence :=
    (number maxCount / number (Z.of_nat (List.length scores)))%float in
  if Counts.positive sentimentCounts =? maxCount
  then Combined64.Build Sentiment.positive confidence
  else if Counts.negative sentimentCounts =? maxCount
  then Combined64.Build Sentiment.negative confidence
  else Combined64.Build Sentiment.neutral confidence.

Definition calculateConfidence64 (sentiment : Combined64.t)
           (emotion : Emotion.t) (intent : Intent.t) : PrimFloat.float :=
  let confidence := (Combined64.confidence sentiment * number 100)%float in
  let confidence :=
    if Emotion.eqb emotion Emotion.suicidal
    then (confidence + number 20)%float else confidence in
  let confidence :=
    if Emotion.eqb emotion Emotion.depression
       || Emotion.eqb emotion Emotion.anxiety
    then (confidence + number 10)%float else confidence in
  let confidence :=
    if Intent.eqb intent Intent.help_request
    then (confidence + number 15)%float else confidence in
  let confidence :=
    if Intent.eqb intent Intent.meditation || Intent.eqb intent Intent.sleep
    then (confidence + number 10)%float else confidence in
  Math_min64 confidence (number 100).

Definition analyzeSentiment64 (text : string) : result Analysis64.t :=
  let cleanedText := cleanText text in
  let vaderScore := vaderSentiment cleanedText in
  let keywordScore := keywordSentiment cleanedText in
  let patternScore := patternSentiment cleanedText in
  let combinedSentiment :=
    combineSentiments64 [vaderScore; keywordScore; patternScore] in
  emotion <- detectEmotion cleanedText ;;
  intent <- detectIntent cleanedText ;;
  let confidence := calculateConfidence64 combinedSentiment emotion intent in
  Ok (Analysis64.Build (Combined64.sentiment combinedSentiment) emotion intent
        confidence
        (Scores64.Build vaderScore keywordScore patternScore
           combinedSentiment)).

(** ** The rest of the edge function *)

(** *** [generateEnhancedResponse]

    The object literal [responses], and the lookup
    [responses[analysis.intent]?.[analysis.sentiment] ||
     responses.general[analysis.sentiment]]. *)

Definition responses
  : obj (K := Intent.t) (V := obj (K := Sentiment.t) (V := string)) :=
  [ (Intent.help_request,
      [ (Sentiment.positive,
          "I'm glad you're reaching out! I'm here to support you. What specific help do you need?");
        (Sentiment.negative,
          "I hear that you're struggling. You're not alone, and I'm here to help. Can you tell me more about what you're going through?");
        (Sentiment.neutral,
          "I'm here to help you. What would you like to talk about?") ]);
    (Intent.greeting,
      [ (Sentiment.positive,
          "I'm doing well, thank you for asking! I'm here to support you. How are you feeling today?");
        (Sentiment.negative,
          "I'm here for you. I can sense you might be going through a difficult time. Would you like to talk about it?");
        (Sentiment.neutral,
          "I'm here and ready to listen. How are you feeling today?") ]);
    (Intent.gratitude,
      [ (Sentiment.positive,
          "You're very welcome! I'm glad I could help. Is there anything else you'd like to discuss?");
        (Sentiment.negative,
          "You're welcome. I'm here whenever you need support. Remember, you don't have to go through this alone.");
        (Sentiment.neutral,
          "You're welcome! I'm here to support you.") ]);
    (Intent.meditation,
      [ (Sentiment.positive,
          "That's wonderful that you're interested in meditation! It can be a great tool for mental wellness.");
        (Sentiment.negative,
          "Meditation can be very helpful during difficult times. Would you like to try a simple breathing exercise?");
        (Sentiment.neutral,
          "Meditation is a great practice for mental health. Would you like to learn more?") ]);
    (Intent.sleep,
      [ (Sentiment.positive,
          "Good sleep is essential for mental health! I'm glad you're thinking about it.");
        (Sentiment.negative,
          "Sleep issues can really impact our mental health. Would you like to talk about what's affecting your sleep?");
        (Sentiment.neutral,
          "Sleep is crucial for mental wellness. How have you been sleeping lately?") ]);
    (Intent.general,
      [ (Sentiment.positive,
          "That sounds wonderful! I'm here to listen and support you.");
        (Sentiment.negative,
          "I can sense you're going through a difficult time. I'm here to listen and support you. Would you like to talk more about what's on your mind?");
        (Sentiment.neutral,
          "I'm here to listen and support you. What's on your mind?") ]) ].

(** [o?.[k]]: [undefined] when [o] is [undefined]. *)
Definition optional_get {K V : Type} (eqb : K -> K -> bool)
           (o : option (obj (K := K) (V := V))) (k : K) : option V :=
  match o with
  | Some inner => get eqb inner k
  | None => None
  end.

(** [x || y] where [x] is a string or [undefined]: the empty string and
    [undefined] are the falsy ones. *)
Definition or_else (x y : option string) : option string :=
  match x with
  | Some s => if String.eqb s "" then y else Some s
  | None => y
  end.

Module Reply.
Record t : Type :=
  Build { response : option string;
          sentiment : Sentiment.t;
          emotion : Emotion.t;
          confidence : Q;
          intent : Intent.t }.
End Reply.

Definition generateEnhancedResponse (message : string) (analysis : Analysis.t)
  : Reply.t :=
  let response :=
    or_else
      (optional_get Sentiment.eqb
         (get Intent.eqb responses (Analysis.intent analysis))
         (Analysis.sentiment analysis))
      (optional_get Sentiment.eqb
         (get Intent.eqb responses Intent.general)
         (Analysis.sentiment analysis)) in
  Reply.Build response
    (Analysis.sentiment analysis) (Analysis.emotion analysis)
    (Analysis.confidence analysis) (Analysis.intent analysis).

(** *** The title the handler gives a new conversation:
    [message.substring(0, 50) + (message.length > 50 ? '...' : '')]. *)
Definition conversation_title (message : string) : string :=
  substring 0 50 message
  ++ (if (50 <? String.length message)%nat then "..." else "").

(** ** Vocabulary of the specification *)

(** A user-authored message. *)
Definition is_user (message : Message.t) : bool :=
  String.eqb (Message.sender_type message) "user".

(** The crisis rules as the specification lists them: one term per rule,
    added up, then clamped. *)
Definition spec_sentiment_term (s : Sentiment.t) : Z :=
  match s with
  | Sentiment.negative => 1
  | Sentiment.positive => -1
  | Sentiment.neutral => 0
  end.

Definition spec_emotion_term (e : Emotion.t) : Z :=
  match e with
  | Emotion.suicidal => 5
  | Emotion.depression => 3
  | Emotion.anxiety => 2
  | Emotion.anger => 2
  | Emotion.loneliness => 1
  | Emotion.happiness => 0
  | Emotion.neutral => 0
  end.

Definition spec_confidence_term (c : Q) : Z :=
  (if Qlt_le_dec 80 c then 1 else 0) + (if Qlt_le_dec 90 c then 1 else 0).

Definition spec_intent_term (i : Intent.t) : Z :=
  match i with
  | Intent.help_request => 1
  | _ => 0
  end.

Definition spec_crisis_sum (a : Analysis.t) : Z :=
  spec_sentiment_term (Analysis.sentiment a)
  + spec_emotion_term (Analysis.emotion a)
  + spec_confidence_term (Analysis.confidence a)
  + spec_intent_term (Analysis.intent a).

Definition spec_clamp (lo hi x : Z) : Z :=
  if x <? lo then lo else if hi <? x then hi else x.

(** The votes a label gets from a list of scorer results. *)
Definition votes (scores : list Score) (label : Sentiment.t) : Z :=
  Z.of_nat
    (List.length
       (filter (fun s => Sentiment.eqb (sentiment_of s) label) scores)).

(** The preference order positive, negative, neutral. *)
Definition preference (label : Sentiment.t) : Z :=
  match label with
  | Sentiment.positive => 0
  | Sentiment.negative => 1
  | Sentiment.neutral => 2
  end.

(** A text made of white space only (the empty text included). *)
Fixpoint whitespace_only (s : string) : bool :=
  match s with
  | EmptyString => true
  | String c s' => is_space c && whitespace_only s'
  end.

(** What a detector returns, relative to the declaration order of its
    lexicon.  Either no category matches and the result is the default, or
    the result is a category with a positive count that no category beats;
    [last_declared_max] puts every category with an equal count before the
    result, [first_declared_max] puts them after it. *)
Section DeclarationOrder.
Context {K : Type}.

Definition no_match (lexicon : list (K * list string)) (text : string) : Prop :=
  Forall (fun entry => count_included text (snd entry) = 0) lexicon.

Definition last_declared_max (lexicon : list (K * list string)) (default : K)
           (text : string) (r : K) : Prop :=
  (no_match lexicon text /\ r = default) \/
  (exists before keywords after,
      lexicon = (before ++ (r, keywords) :: after)%list /\
      0 < count_included text keywords /\
      Forall (fun entry =>
                count_included text (snd entry) <= count_included text keywords)
             before /\
      Forall (fun entry =>
                count_included text (snd entry) < count_included text keywords)
             after).

Definition first_declared_max (lexicon : list (K * list string)) (default : K)
           (text : string) (r : K) : Prop :=
  (no_match lexicon text /\ r = default) \/
  (exists before keywords after,
      lexicon = (before ++ (r, keywords) :: after)%list /\
      0 < count_included text keywords /\
      Forall (fun entry =>
                count_included text (snd entry) < count_included text keywords)
             before /\
      Forall (fun entry =>
                count_included text (snd entry) <= count_included text keywords)
             after).
(** The table [detect] builds, written as a filter over the lexicon. *)
Definition positive_entries (lexicon : list (K * list string)) (text : string)
  : list (K * Z) :=
  filter (fun entry => 0 <? snd entry)
         (map (fun entry => (fst entry, count_included text (snd entry)))
              lexicon).

(** An entry is a last maximum of a list of entries when no entry before it
    has a greater value and every entry after it has a smaller one. *)
Definition last_max (l : list (K * Z)) (r : K * Z) : Prop :=
  exists before after,
    l = (before ++ r :: after)%list /\
    Forall (fun x => snd x <= snd r) before /\
    Forall (fun x => snd x < snd r) after.
End DeclarationOrder.

(** ** Vocabulary of the further properties *)

(** The shape of a cleaned text: lower-case letters and blanks only, no blank
    at either end and no two blanks in a row.  [spaced after_blank s] reads
    [s] knowing whether a blank (or the start of the text) comes just before
    it. *)
Definition is_lower_letter (c : ascii) : bool := between 97 122 c.

Definition is_blank (c : ascii) : bool := Ascii.eqb c " ".

Fixpoint spaced (after_blank : bool) (s : string) : bool :=
  match s with
  | EmptyString => true
  | String c s' =>
      if is_blank c then negb after_blank && spaced true s'
      else is_lower_letter c && spaced false s'
  end.

Fixpoint last_is_blank (s : string) : bool :=
  match s with
  | EmptyString => false
  | String c s' =>
      match s' with
      | EmptyString => is_blank c
      | String _ _ => last_is_blank s'
      end
  end.

Definition tidy (s : string) : bool := spaced true s && negb (last_is_blank s).

Fixpoint all_lower_letters (s : string) : bool :=
  match s with
  | EmptyString => true
  | String c s' => is_lower_letter c && all_lower_letters s'
  end.

(** A word: a non-empty string of lower-case letters. *)
Definition is_word (s : string) : bool :=
  negb (String.eqb s "") && all_lower_letters s.

Fixpoint all_chars (p : ascii -> bool) (s : string) : bool :=
  match s with
  | EmptyString => true
  | String c s' => p c && all_chars p s'
  end.

(** The keywords a lexicon declares for a category (none for a label that is
    not a key), and the number of them a text includes. *)
Fixpoint keywords_of {K : Type} (eqb : K -> K -> bool)
         (lexicon : list (K * list string)) (k : K) : list string :=
  match lexicon with
  | [] => []
  | (k', keywords) :: lexicon' =>
      if eqb k k' then keywords else keywords_of eqb lexicon' k
  end.

Definition emotion_hits (text : string) (e : Emotion.t) : Z :=
  count_included text (keywords_of Emotion.eqb emotionKeywords e).

Definition intent_hits (text : string) (i : Intent.t) : Z :=
  count_included text (keywords_of Intent.eqb intentKeywords i).

(** The rational a finite double stands for: its mantissa scaled by a power
    of two ([None] for an infinity or a NaN). *)
Definition exact_value (x : PrimFloat.float) : option Q :=
  match FloatOps.Prim2SF x with
  | SpecFloat.S754_zero _ => Some 0%Q
  | SpecFloat.S754_finite negative mantissa exponent =>
      let magnitude :=
        if 0 <=? exponent then inject_Z (Zpos mantissa * 2 ^ exponent)
        else Zpos mantissa # Z.to_pos (2 ^ (- exponent)) in
      Some (if negative then (- magnitude)%Q else magnitude)
  | _ => None
  end.

(** The three scorers give three different labels. *)
Definition three_way_split (sc : Scores.t) : Prop :=
  sentiment_of (Scores.vader sc) <> sentiment_of (Scores.keyword sc) /\
  sentiment_of (Scores.keyword sc) <> sentiment_of (Scores.pattern sc) /\
  sentiment_of (Scores.vader sc) <> sentiment_of (Scores.pattern sc).

(** How often a label occurs in an array, and the sum of the counters of a
    distribution. *)
Definition occurrences {K : Type} (eqb : K -> K -> bool) (k : K)
           (arr : list K) : Z :=
  Z.of_nat (List.length (filter (eqb k) arr)).

Definition total {K : Type} (counts : obj (K := K) (V := Z)) : Z :=
  fold_right (fun entry sum => snd entry + sum) 0 counts.

(** Closes a goal whose hypotheses order a rational above and below two of
    the thresholds 80 and 90 in a contradictory way. *)
Ltac absurd_order :=
  exfalso;
  match goal with
  | Hlt : (?x < ?c)%Q, Hle : (?c <= ?y)%Q |- _ =>
      apply (Qlt_irrefl x);
      apply (Qlt_le_trans _ _ _ Hlt);
      apply (Qle_trans _ _ _ Hle);
      apply Qle_bool_iff; reflexivity
  | Hlt : (?x < ?c)%Q, Hle : (?c <= ?d)%Q, Hle' : (?d <= ?y)%Q |- _ =>
      apply (Qlt_irrefl x);
      apply (Qlt_le_trans _ _ _ Hlt);
      apply (Qle_trans _ _ _ Hle);
      apply (Qle_trans _ _ _ Hle');
      apply Qle_bool_iff; reflexivity
  end.

(** * Properties *)

(** ** Labels and numbers *)

Lemma sentiment_eqb_eq (a b : Sentiment.t) : Sentiment.eqb a b = true <-> a = b.
Proof. destruct a, b; simpl; split; congruence. Qed.

Lemma emotion_eqb_eq (a b : Emotion.t) : Emotion.eqb a b = true <-> a = b.
Proof. destruct a, b; simpl; split; congruence. Qed.

Lemma intent_eqb_eq (a b : Intent.t) : Intent.eqb a b = true <-> a = b.
Proof. destruct a, b; simpl; split; congruence. Qed.

Lemma Qgtb_true (x y : Q) : Qgtb x y = true <-> (y < x)%Q.
Proof.
  unfold Qgtb. rewrite negb_true_iff. split; intro H.
  - apply Qnot_le_lt. intro Hle. apply Qle_bool_iff in Hle. congruence.
  - destruct (Qle_bool x y) eqn:E; [|reflexivity].
    apply Qle_bool_iff in E. exfalso. exact (Qlt_not_le _ _ H E).
Qed.

Lemma Qgtb_decide (x y : Q) :
  Qgtb x y = if Qlt_le_dec y x then true else false.
Proof.
  destruct (Qlt_le_dec y x) as [Hlt | Hle].
  - now apply Qgtb_true.
  - destruct (Qgtb x y) eqn:E; [|reflexivity].
    apply Qgtb_true in E. exfalso. exact (Qlt_not_le _ _ E Hle).
Qed.

Lemma Math_min_le_r (x y : Q) : (Math_min x y <= y)%Q.
Proof.
  unfold Math_min. destruct (Qle_bool x y) eqn:E.
  - now apply Qle_bool_iff.
  - apply Qle_refl.
Qed.

Lemma Math_min_glb (x y z : Q) : (z <= x)%Q -> (z <= y)%Q -> (z <= Math_min x y)%Q.
Proof. unfold Math_min. now destruct (Qle_bool x y). Qed.

(** ** The signal combiner *)

Lemma tally_votes (scores : list Score) (c0 : Counts.t) :
  fold_left (fun counts score => Counts.incr counts (sentiment_of score))
            scores c0
  = Counts.Build (Counts.positive c0 + votes scores Sentiment.positive)
                 (Counts.negative c0 + votes scores Sentiment.negative)
                 (Counts.neutral c0 + votes scores Sentiment.neutral).
Proof.
  revert c0. induction scores as [|s scores IH]; intro c0.
  - destruct c0; unfold votes; simpl. now rewrite !Z.add_0_r.
  - cbn [fold_left]. rewrite IH. unfold votes. cbn [filter].
    destruct (sentiment_of s); cbn [Sentiment.eqb Counts.incr Counts.positive
      Counts.negative Counts.neutral List.length]; f_equal; lia.
Qed.

Lemma votes_nonneg (scores : list Score) (label : Sentiment.t) :
  0 <= votes scores label.
Proof. unfold votes. lia. Qed.

Lemma votes_total (scores : list Score) :
  votes scores Sentiment.positive + votes scores Sentiment.negative
  + votes scores Sentiment.neutral = Z.of_nat (List.length scores).
Proof.
  unfold votes. induction scores as [|s scores IH]; [reflexivity|].
  cbn [filter List.length].
  destruct (sentiment_of s); cbn [Sentiment.eqb List.length]; lia.
Qed.

(** The combiner on any array of scores: the label it returns has the most
    votes, comes first in the preference order among the labels with that
    many votes, and the confidence is its votes over the number of scores. *)
Lemma combineSentiments_votes (scores : list Score) :
  let c := combineSentiments scores in
  let winner := Combined.sentiment c in
  (forall label, votes scores label <= votes scores winner) /\
  (forall label, votes scores label = votes scores winner ->
                 preference winner <= preference label) /\
  Combined.confidence c
  = (inject_Z (votes scores winner)
     / inject_Z (Z.of_nat (List.length scores)))%Q.
Proof.
  unfold combineSentiments. rewrite tally_votes.
  cbn [Counts.positive Counts.negative Counts.neutral]. rewrite !Z.add_0_l.
  unfold Math_max3.
  set (p := votes scores Sentiment.positive).
  set (n := votes scores Sentiment.negative).
  set (u := votes scores Sentiment.neutral).
  destruct (p =? Z.max p (Z.max n u)) eqn:Ep;
    [|destruct (n =? Z.max p (Z.max n u)) eqn:En];
    cbn [Combined.sentiment Combined.confidence];
    rewrite ?Z.eqb_eq, ?Z.eqb_neq in *;
    (split; [|split]);
    try (intros [] ; fold p n u; cbn [preference]; lia).
  - fold p. now rewrite <- Ep.
  - fold n. now rewrite <- En.
  - fold u. replace (Z.max p (Z.max n u)) with u by lia. reflexivity.
Qed.

(** ** Score tables and the reduction that picks the best entry *)

Lemma count_included_from (text : string) (keywords : list string) (start : Z) :
  start <= fold_left (fun score keyword =>
                        if includes text keyword then score + 1 else score)
                     keywords start.
Proof.
  revert start. induction keywords as [|k keywords IH]; intro start.
  - simpl. lia.
  - cbn [fold_left]. destruct (includes text k).
    + specialize (IH (start + 1)). lia.
    + apply IH.
Qed.

Lemma count_included_nonneg (text : string) (keywords : list string) :
  0 <= count_included text keywords.
Proof. apply count_included_from. Qed.

Section DetectProperties.
Context {K : Type} (eqb : K -> K -> bool).
Hypothesis eqb_eq : forall a b, eqb a b = true <-> a = b.

Lemma eqb_refl_true (k : K) : eqb k k = true.
Proof. now apply eqb_eq. Qed.

Lemma eqb_neq_false (a b : K) : a <> b -> eqb a b = false.
Proof.
  intro H. destruct (eqb a b) eqn:E; [|reflexivity].
  apply eqb_eq in E. contradiction.
Qed.

Lemma set_fresh {V : Type} (o : obj (K := K) (V := V)) (k : K) (v : V) :
  ~ In k (keys o) -> set eqb o k v = (o ++ [(k, v)])%list.
Proof.
  induction o as [|[k' v'] o IH]; intro Hk; [reflexivity|].
  cbn [set app]. cbn [keys map fst In] in Hk.
  rewrite eqb_neq_false by (intro; subst; tauto).
  f_equal. apply IH. unfold keys. tauto.
Qed.

Lemma get_in {V : Type} (o : obj (K := K) (V := V)) (k : K) (v : V) :
  NoDup (keys o) -> In (k, v) o -> get eqb o k = Some v.
Proof.
  induction o as [|[k' v'] o IH]; intros Hnd Hin; [contradiction|].
  cbn [keys map fst] in Hnd. inversion Hnd as [|? ? Hnotin Hnd']; subst.
  cbn [get]. destruct Hin as [Heq | Hin].
  - inversion Heq; subst. now rewrite eqb_refl_true.
  - rewrite eqb_neq_false.
    + now apply IH.
    + intro; subst. apply Hnotin. apply (in_map fst) in Hin. exact Hin.
Qed.

Lemma positive_entries_keys (lexicon : list (K * list string)) (text : string)
      (k : K) :
  In k (keys (positive_entries lexicon text)) -> In k (map fst lexicon).
Proof.
  unfold keys, positive_entries. intro H.
  apply in_map_iff in H. destruct H as ([k' v] & Hk & Hin). simpl in Hk. subst.
  apply filter_In in Hin. destruct Hin as [Hin _].
  apply in_map_iff in Hin. destruct Hin as (e & He & Hin).
  inversion He; subst. now apply in_map.
Qed.

Lemma positive_entries_NoDup (lexicon : list (K * list string)) (text : string) :
  NoDup (map fst lexicon) -> NoDup (keys (positive_entries lexicon text)).
Proof.
  induction lexicon as [|[k kws] lexicon IH]; intro Hnd.
  - constructor.
  - inversion Hnd as [|? ? Hnotin Hnd']; subst.
    unfold positive_entries. cbn [map filter fst snd].
    destruct (0 <? count_included text kws).
    + cbn [keys map fst]. constructor.
      * intro Hin. apply Hnotin. eapply positive_entries_keys. exact Hin.
      * now apply IH.
    + now apply IH.
Qed.

Lemma score_table_from (lexicon : list (K * list string)) (text : string)
      (acc : obj (K := K) (V := Z)) :
  NoDup (map fst lexicon) ->
  (forall k, In k (keys acc) -> ~ In k (map fst lexicon)) ->
  fold_left
    (fun scores '(category, keywords) =>
       let score := count_included text keywords in
       if 0 <? score then set eqb scores category score else scores)
    lexicon acc
  = (acc ++ positive_entries lexicon text)%list.
Proof.
  revert acc. induction lexicon as [|[k kws] lexicon IH]; intros acc Hnd Hacc.
  - simpl. now rewrite app_nil_r.
  - inversion Hnd as [|? ? Hnotin Hnd']; subst.
    cbn [fold_left]. unfold positive_entries. cbn [map filter fst snd].
    cbv zeta. destruct (0 <? count_included text kws) eqn:E.
    + rewrite set_fresh.
      * rewrite IH; [now rewrite <- app_assoc | assumption |].
        intros k' Hk'. unfold keys in Hk'. rewrite map_app in Hk'.
        apply in_app_or in Hk'. destruct Hk' as [Hk' | Hk'].
        -- intro Hin. apply (Hacc k' Hk'). now right.
        -- cbn in Hk'. destruct Hk' as [<- | []]. assumption.
      * intro Hin. apply (Hacc k Hin). now left.
    + apply IH; [assumption|].
      intros k' Hk' Hin. apply (Hacc k' Hk'). now right.
Qed.

Lemma score_table_filter (lexicon : list (K * list string)) (text : string) :
  NoDup (map fst lexicon) ->
  score_table eqb lexicon text = positive_entries lexicon text.
Proof.
  intro Hnd. unfold score_table. now rewrite score_table_from.
Qed.

Lemma higher_fold_last_max (scores : obj (K := K) (V := Z))
      (rest seen : list (K * Z)) (a : K * Z) :
  NoDup (keys scores) ->
  (forall x, In x (seen ++ rest)%list -> In x scores) ->
  last_max seen a ->
  last_max (seen ++ rest)%list (fold_left (higher eqb scores) rest a).
Proof.
  intro Hnd. revert seen a.
  induction rest as [|b rest IH]; intros seen a Hin Hlast.
  - cbn [fold_left]. now rewrite app_nil_r.
  - cbn [fold_left].
    replace (seen ++ b :: rest)%list with ((seen ++ [b]) ++ rest)%list
      by (now rewrite <- app_assoc).
    apply IH.
    + intros x Hx. apply Hin. now rewrite <- app_assoc in Hx.
    + destruct Hlast as (before & after & Hseen & Hbefore & Hafter).
      assert (Ha : In a scores).
      { apply Hin. apply in_or_app. left. rewrite Hseen.
        apply in_or_app. right. now left. }
      assert (Hb : In b scores).
      { apply Hin. apply in_or_app. right. now left. }
      unfold higher. destruct a as [ka va], b as [kb vb]. cbn [fst].
      rewrite (get_in scores ka va Hnd Ha), (get_in scores kb vb Hnd Hb).
      cbn [gt]. destruct (vb <? va) eqn:E.
      * apply Z.ltb_lt in E. exists before, (after ++ [(kb, vb)])%list.
        split; [|split].
        -- rewrite Hseen. now rewrite <- app_assoc.
        -- exact Hbefore.
        -- apply Forall_app. split; [exact Hafter|].
           constructor; [exact E | constructor].
      * apply Z.ltb_ge in E. exists seen, []. split; [|split].
        -- reflexivity.
        -- rewrite Hseen. apply Forall_app. split.
           ++ eapply Forall_impl; [|exact Hbefore].
              cbn. intros; lia.
           ++ constructor; [cbn; lia|].
              eapply Forall_impl; [|exact Hafter]. cbn. intros; lia.
        -- constructor.
Qed.

Lemma reduce_higher_last_max (scores : obj (K := K) (V := Z)) :
  NoDup (keys scores) -> scores <> [] ->
  exists best,
    reduce (higher eqb scores) (entries scores) = Ok best /\
    last_max scores best.
Proof.
  intros Hnd Hne. destruct scores as [|a rest]; [congruence|].
  unfold entries, reduce. eexists. split; [reflexivity|].
  apply (higher_fold_last_max (a :: rest) rest [a] a Hnd).
  - intros x Hx. exact Hx.
  - exists [], []. repeat split; constructor.
Qed.

Lemma positive_entries_nil (lexicon : list (K * list string)) (text : string) :
  positive_entries lexicon text = [] -> no_match lexicon text.
Proof.
  unfold no_match, positive_entries.
  induction lexicon as [|[k kws] lexicon IH]; intro H; [constructor|].
  cbn [map filter fst snd] in H.
  destruct (0 <? count_included text kws) eqn:E; [discriminate|].
  apply Z.ltb_ge in E. pose proof (count_included_nonneg text kws).
  constructor; [cbn [snd]; lia | now apply IH].
Qed.

Lemma positive_entries_split (lexicon : list (K * list string)) (text : string)
      (l1 l2 : list (K * Z)) (r : K) (v : Z) :
  positive_entries lexicon text = (l1 ++ (r, v) :: l2)%list ->
  exists before keywords after,
    lexicon = (before ++ (r, keywords) :: after)%list /\
    v = count_included text keywords /\
    0 < v /\
    positive_entries before text = l1 /\
    positive_entries after text = l2.
Proof.
  revert l1. induction lexicon as [|[k kws] lexicon IH]; intros l1 H.
  - cbn in H. destruct l1; discriminate.
  - unfold positive_entries in H. cbn [map filter fst snd] in H.
    fold (positive_entries lexicon text) in H.
    destruct (0 <? count_included text kws) eqn:E.
    + destruct l1 as [|x l1]; cbn [app] in H; inversion H; subst.
      * exists [], kws, lexicon. apply Z.ltb_lt in E. repeat split; auto.
      * destruct (IH l1 H2) as (b & kws' & a & -> & Hv & Hpos & Hb & Ha).
        exists ((k, kws) :: b), kws', a. repeat split; auto.
        unfold positive_entries. cbn [map filter fst snd]. rewrite E.
        f_equal. exact Hb.
    + destruct (IH l1 H) as (b & kws' & a & -> & Hv & Hpos & Hb & Ha).
      exists ((k, kws) :: b), kws', a. repeat split; auto.
      unfold positive_entries. cbn [map filter fst snd]. rewrite E. exact Hb.
Qed.

Lemma positive_entries_Forall (R : Z -> Prop) (lexicon : list (K * list string))
      (text : string) :
  (forall c, c <= 0 -> R c) ->
  Forall (fun x => R (snd x)) (positive_entries lexicon text) ->
  Forall (fun entry => R (count_included text (snd entry))) lexicon.
Proof.
  intro Hlow. induction lexicon as [|[k kws] lexicon IH]; intro H; [constructor|].
  unfold positive_entries in H. cbn [map filter fst snd] in H.
  fold (positive_entries lexicon text) in H.
  destruct (0 <? count_included text kws) eqn:E.
  - inversion H; subst. constructor; [assumption | now apply IH].
  - apply Z.ltb_ge in E. constructor; [now apply Hlow | now apply IH].
Qed.

(** [detect] never throws, and its result is the last declared category among
    those with the greatest positive count, or the default when no category
    has one. *)
Lemma detect_last_declared_max (lexicon : list (K * list string)) (default : K)
      (text : string) :
  NoDup (map fst lexicon) ->
  exists r, detect eqb lexicon default text = Ok r /\
            last_declared_max lexicon default text r.
Proof.
  intro Hnd. unfold detect. rewrite (score_table_filter _ _ Hnd).
  pose proof (positive_entries_NoDup lexicon text Hnd) as Hkeys.
  destruct (positive_entries lexicon text) as [|a rest] eqn:E.
  - exists default. split; [reflexivity|]. left.
    split; [now apply positive_entries_nil | reflexivity].
  - destruct (reduce_higher_last_max (a :: rest) Hkeys) as (best & Hbest & Hlast);
      [discriminate|].
    cbn [keys map List.length Nat.eqb]. rewrite Hbest. cbn [bind].
    exists (fst best). split; [reflexivity|]. right.
    destruct Hlast as (l1 & l2 & Hsplit & Hl1 & Hl2).
    destruct best as [r v]. cbn [fst snd] in *.
    rewrite <- E in Hsplit.
    destruct (positive_entries_split _ _ _ _ _ _ Hsplit)
      as (before & kws & after & Hlex & Hv & Hpos & Hb & Ha).
    exists before, kws, after. subst v.
    split; [exact Hlex | split; [exact Hpos | split]].
    + apply (positive_entries_Forall
               (fun c => c <= count_included text kws)); [intros; lia|].
      now rewrite Hb.
    + apply (positive_entries_Forall
               (fun c => c < count_included text kws)); [intros; lia|].
      now rewrite Ha.
Qed.
End DetectProperties.

Lemma emotionKeywords_NoDup : NoDup (map fst emotionKeywords).
Proof. repeat constructor; cbn; intuition discriminate. Qed.

Lemma intentKeywords_NoDup : NoDup (map fst intentKeywords).
Proof. repeat constructor; cbn; intuition discriminate. Qed.

(** ** Cleaning a text made of white space *)

Lemma lower_char_space (c : ascii) : is_space c = true -> lower_char c = c.
Proof.
  destruct c as [[] [] [] [] [] [] [] []]; intro H; vm_compute in H;
    try discriminate H; reflexivity.
Qed.

Lemma toLowerCase_whitespace (s : string) :
  whitespace_only s = true -> toLowerCase s = s.
Proof.
  induction s as [|c s IH]; [reflexivity|]. cbn [whitespace_only toLowerCase].
  intro H. apply andb_true_iff in H. destruct H as [Hc Hs].
  now rewrite (lower_char_space c Hc), IH.
Qed.

Lemma remove_outside_whitespace (s : string) :
  whitespace_only s = true ->
  remove_outside (fun c => is_letter c || is_space c) s = s.
Proof.
  induction s as [|c s IH]; [reflexivity|].
  cbn [whitespace_only remove_outside].
  intro H. apply andb_true_iff in H. destruct H as [Hc Hs].
  now rewrite Hc, orb_true_r, IH.
Qed.

Lemma replace_space_runs_whitespace (in_run : bool) (s : string) :
  whitespace_only s = true ->
  whitespace_only (replace_space_runs in_run s) = true.
Proof.
  revert in_run. induction s as [|c s IH]; intros in_run H; [reflexivity|].
  cbn [whitespace_only] in H. apply andb_true_iff in H. destruct H as [Hc Hs].
  cbn [replace_space_runs]. rewrite Hc.
  destruct in_run; [now apply IH|].
  cbn [whitespace_only]. now rewrite IH.
Qed.

Lemma trimStart_whitespace (s : string) :
  whitespace_only s = true -> trimStart s = EmptyString.
Proof.
  induction s as [|c s IH]; [reflexivity|].
  cbn [whitespace_only trimStart].
  intro H. apply andb_true_iff in H. destruct H as [Hc Hs].
  rewrite Hc. now apply IH.
Qed.

Lemma cleanText_whitespace (text : string) :
  whitespace_only text = true -> cleanText text = EmptyString.
Proof.
  intro H. unfold cleanText.
  rewrite (toLowerCase_whitespace text H), (remove_outside_whitespace text H).
  unfold trim. rewrite trimStart_whitespace; [reflexivity|].
  now apply replace_space_runs_whitespace.
Qed.

(** ** The analyzer as a whole *)

Lemma detectEmotion_returns (text : string) :
  exists e, detectEmotion text = Ok e /\
            last_declared_max emotionKeywords Emotion.neutral text e.
Proof.
  apply (detect_last_declared_max Emotion.eqb emotion_eqb_eq).
  exact emotionKeywords_NoDup.
Qed.

Lemma detectIntent_returns (text : string) :
  exists i, detectIntent text = Ok i /\
            last_declared_max intentKeywords Intent.general text i.
Proof.
  apply (detect_last_declared_max Intent.eqb intent_eqb_eq).
  exact intentKeywords_NoDup.
Qed.

Lemma analyzeSentiment_returns (text : string) :
  exists e i,
    let cleaned := cleanText text in
    let scores :=
      [vaderSentiment cleaned; keywordSentiment cleaned;
       patternSentiment cleaned] in
    let c := combineSentiments scores in
    analyzeSentiment text
    = Ok (Analysis.Build (Combined.sentiment c) e i
            (calculateConfidence c e i)
            (Scores.Build (vaderSentiment cleaned) (keywordSentiment cleaned)
               (patternSentiment cleaned) c)).
Proof.
  destruct (detectEmotion_returns (cleanText text)) as (e & He & _).
  destruct (detectIntent_returns (cleanText text)) as (i & Hi & _).
  exists e, i. unfold analyzeSentiment. cbv zeta. rewrite He. cbn [bind].
  rewrite Hi. reflexivity.
Qed.

Lemma analyzeSentiment_cleanText (text text' : string) :
  cleanText text = cleanText text' ->
  analyzeSentiment text = analyzeSentiment text'.
Proof. intro H. unfold analyzeSentiment. now rewrite H. Qed.

(** With three scorers the winning label has one, two or three votes. *)
Lemma combine_three_confidence (r1 r2 r3 : Score) :
  exists m, 1 <= m <= 3 /\
    Combined.confidence (combineSentiments [r1; r2; r3])
    = (inject_Z m / inject_Z 3)%Q.
Proof.
  destruct (combineSentiments_votes [r1; r2; r3]) as (Hmax & _ & Hconf).
  pose proof (votes_total [r1; r2; r3]) as Htotal.
  cbn [List.length] in Htotal, Hconf.
  exists (votes [r1; r2; r3]
                (Combined.sentiment (combineSentiments [r1; r2; r3]))).
  split; [|exact Hconf].
  pose proof (Hmax Sentiment.positive). pose proof (Hmax Sentiment.negative).
  pose proof (Hmax Sentiment.neutral).
  pose proof (votes_nonneg [r1; r2; r3] Sentiment.positive).
  pose proof (votes_nonneg [r1; r2; r3] Sentiment.negative).
  pose proof (votes_nonneg [r1; r2; r3] Sentiment.neutral).
  destruct (Combined.sentiment (combineSentiments [r1; r2; r3])); lia.
Qed.

Lemma calculateConfidence_bounds (c : Combined.t) (e : Emotion.t)
      (i : Intent.t) (m : Z) :
  1 <= m <= 3 ->
  Combined.confidence c = (inject_Z m / inject_Z 3)%Q ->
  (100 / 3 <= calculateConfidence c e i)%Q /\
  (calculateConfidence c e i <= 100)%Q.
Proof.
  intros Hm Hc. unfold calculateConfidence. rewrite Hc.
  assert (Hcases : m = 1 \/ m = 2 \/ m = 3) by lia.
  destruct Hcases as [-> | [-> | ->]]; destruct e, i;
    split; apply Qle_bool_iff; vm_compute; reflexivity.
Qed.

Lemma Math_min_le_l (x y : Q) : (Math_min x y <= x)%Q.
Proof.
  unfold Math_min. destruct (Qle_bool x y) eqn:E.
  - apply Qle_refl.
  - apply Qlt_le_weak. apply Qgtb_true. unfold Qgtb. now rewrite E.
Qed.

Lemma Math_min_mono (x x' y : Q) :
  (x <= x')%Q -> (Math_min x y <= Math_min x' y)%Q.
Proof.
  intro H. apply Math_min_glb.
  - eapply Qle_trans; [apply Math_min_le_l | exact H].
  - apply Math_min_le_r.
Qed.

Lemma boost_le (b : bool) (x k : Q) :
  (0 <= k)%Q -> (x <= if b then x + k else x)%Q.
Proof.
  intro Hk. destruct b; [|apply Qle_refl].
  apply Qle_trans with (x + 0)%Q.
  - rewrite Qplus_0_r. apply Qle_refl.
  - now apply Qplus_le_r.
Qed.

(** The calibrator only raises the scaled confidence before it caps it. *)
Lemma calculateConfidence_ge_base (c : Combined.t) (e : Emotion.t)
      (i : Intent.t) :
  (Math_min (Combined.confidence c * 100) 100 <= calculateConfidence c e i)%Q.
Proof.
  unfold calculateConfidence. cbv zeta. apply Math_min_mono.
  eapply Qle_trans; [|apply boost_le; discriminate].
  eapply Qle_trans; [|apply boost_le; discriminate].
  eapply Qle_trans; [|apply boost_le; discriminate].
  apply boost_le; discriminate.
Qed.

(** ** The aggregator: when it returns and when it throws *)

Lemma set_nonempty {K V : Type} (eqb : K -> K -> bool)
      (o : obj (K := K) (V := V)) (k : K) (v : V) :
  set eqb o k v <> [].
Proof. destruct o as [|[k' v'] o]; cbn [set]; [|destruct (eqb k k')]; discriminate. Qed.

Lemma countOccurrences_nonempty {K : Type} (eqb : K -> K -> bool)
      (arr : list K) :
  arr <> [] -> countOccurrences eqb arr <> [].
Proof.
  unfold countOccurrences. destruct arr as [|x arr]; [congruence|]. intros _.
  cbn [fold_left]. generalize (set_nonempty eqb [] x (or_zero (get eqb [] x) + 1)).
  generalize (set eqb [] x (or_zero (get eqb [] x) + 1)).
  induction arr as [|y arr IH]; intros acc Hacc; [exact Hacc|].
  cbn [fold_left]. apply IH. apply set_nonempty.
Qed.

Lemma getDominant_nonempty {K : Type} (eqb : K -> K -> bool)
      (counts : obj (K := K) (V := Z)) :
  counts <> [] -> exists k, getDominant eqb counts = Ok k.
Proof.
  destruct counts as [|a rest]; [congruence|]. intros _.
  unfold getDominant, entries, reduce. cbn [bind]. eexists. reflexivity.
Qed.

Lemma collect_user_labels_from (messages : list Message.t)
      (sentiments : list Sentiment.t) (emotions : list Emotion.t) :
  exists sentiments' emotions',
    fold_left
      (fun state message =>
         arrays <- state ;;
         let '(sentiments, emotions) := arrays in
         if String.eqb (Message.sender_type message) "user" then
           analysis <- analyzeSentiment (Message.content message) ;;
           Ok (sentiments ++ [Analysis.sentiment analysis],
               emotions ++ [Analysis.emotion analysis])%list
         else Ok (sentiments, emotions))
      messages (Ok (sentiments, emotions))
    = Ok ((sentiments ++ sentiments')%list, (emotions ++ emotions')%list) /\
    (existsb is_user messages = true ->
     sentiments' <> [] /\ emotions' <> []) /\
    (existsb is_user messages = false ->
     sentiments' = [] /\ emotions' = []).
Proof.
  revert sentiments emotions.
  induction messages as [|m messages IH]; intros sentiments emotions.
  - exists [], []. cbn. rewrite !app_nil_r. repeat split; discriminate.
  - cbn [fold_left existsb bind]. unfold is_user at 1 3.
    destruct (String.eqb (Message.sender_type m) "user") eqn:E.
    + destruct (analyzeSentiment_returns (Message.content m)) as (e & i & Ha).
      cbv zeta in Ha. rewrite Ha. cbn [bind Analysis.sentiment Analysis.emotion].
      match goal with
      | |- context [Ok ((sentiments ++ [?s])%list, (emotions ++ [?e'])%list)] =>
          destruct (IH (sentiments ++ [s])%list (emotions ++ [e'])%list)
            as (ss & es & Hfold & _);
          exists (s :: ss), (e' :: es)
      end.
      rewrite Hfold, <- !app_assoc. cbn [app orb].
      repeat split; discriminate.
    + destruct (IH sentiments emotions) as (ss & es & Hfold & Hsome & Hnone).
      exists ss, es. cbn [orb]. auto.
Qed.

(** A non-empty list without a user-authored message makes the aggregator
    throw. *)
Lemma aggregate_without_user_throws (messages : list Message.t) :
  messages <> [] -> existsb is_user messages = false ->
  analyzeConversationHistory messages
  = Throw (TypeError "Reduce of empty array with no initial value").
Proof.
  intros Hne Hnone. unfold analyzeConversationHistory, collect_user_labels.
  destruct messages as [|m messages]; [congruence|].
  cbn [List.length Nat.eqb].
  destruct (collect_user_labels_from (m :: messages) [] [])
    as (ss & es & Hfold & _ & Hempty).
  rewrite Hfold. destruct (Hempty Hnone) as [-> ->]. reflexivity.
Qed.

(** A list with a user-authored message makes the aggregator return a
    trend. *)
Lemma aggregate_with_user_returns (messages : list Message.t) :
  existsb is_user messages = true ->
  exists t, analyzeConversationHistory messages = Ok (Some t).
Proof.
  intro Hsome. unfold analyzeConversationHistory, collect_user_labels.
  destruct messages as [|m messages]; [discriminate|].
  cbn [List.length Nat.eqb].
  destruct (collect_user_labels_from (m :: messages) [] [])
    as (ss & es & Hfold & Hnonempty & _).
  rewrite Hfold. destruct (Hnonempty Hsome) as [Hss Hes].
  cbn [bind app].
  destruct (getDominant_nonempty Sentiment.eqb _
              (countOccurrences_nonempty Sentiment.eqb ss Hss)) as (ds & Hds).
  destruct (getDominant_nonempty Emotion.eqb _
              (countOccurrences_nonempty Emotion.eqb es Hes)) as (de & Hde).
  rewrite Hds. cbn [bind]. rewrite Hde. cbn [bind]. eexists. reflexivity.
Qed.

(** ** The analyzer in double precision *)

Lemma combine64_three (r1 r2 r3 : Score) :
  exists m, 1 <= m <= 3 /\
    Combined64.confidence (combineSentiments64 [r1; r2; r3])
    = (number m / number 3)%float /\
    Combined64.sentiment (combineSentiments64 [r1; r2; r3])
    = Combined.sentiment (combineSentiments [r1; r2; r3]).
Proof.
  unfold combineSentiments64, combineSentiments. rewrite tally_votes.
  cbn [Counts.positive Counts.negative Counts.neutral List.length].
  rewrite !Z.add_0_l. change (Z.of_nat 3) with 3.
  pose proof (votes_total [r1; r2; r3]) as Htotal.
  cbn [List.length] in Htotal. change (Z.of_nat 3) with 3 in Htotal.
  pose proof (votes_nonneg [r1; r2; r3] Sentiment.positive).
  pose proof (votes_nonneg [r1; r2; r3] Sentiment.negative).
  pose proof (votes_nonneg [r1; r2; r3] Sentiment.neutral).
  unfold Math_max3.
  set (p := votes [r1; r2; r3] Sentiment.positive) in *.
  set (n := votes [r1; r2; r3] Sentiment.negative) in *.
  set (u := votes [r1; r2; r3] Sentiment.neutral) in *.
  exists (Z.max p (Z.max n u)). split; [lia|].
  destruct (p =? Z.max p (Z.max n u));
    [|destruct (n =? Z.max p (Z.max n u))]; split; reflexivity.
Qed.

Lemma analyzeSentiment64_returns (text : string) :
  exists e i,
    let cleaned := cleanText text in
    let c :=
      combineSentiments64
        [vaderSentiment cleaned; keywordSentiment cleaned;
         patternSentiment cleaned] in
    analyzeSentiment64 text
    = Ok (Analysis64.Build (Combined64.sentiment c) e i
            (calculateConfidence64 c e i)
            (Scores64.Build (vaderSentiment cleaned)
               (keywordSentiment cleaned) (patternSentiment cleaned) c)).
Proof.
  destruct (detectEmotion_returns (cleanText text)) as (e & He & _).
  destruct (detectIntent_returns (cleanText text)) as (i & Hi & _).
  exists e, i. unfold analyzeSentiment64. cbv zeta. rewrite He. cbn [bind].
  rewrite Hi. reflexivity.
Qed.

(** The labels are those of the analyzer over the rationals. *)
Lemma analyzeSentiment64_labels (text : string) :
  exists a a64,
    analyzeSentiment text = Ok a /\
    analyzeSentiment64 text = Ok a64 /\
    Analysis64.sentiment a64 = Analysis.sentiment a /\
    Analysis64.emotion a64 = Analysis.emotion a /\
    Analysis64.intent a64 = Analysis.intent a.
Proof.
  destruct (detectEmotion_returns (cleanText text)) as (e & He & _).
  destruct (detectIntent_returns (cleanText text)) as (i & Hi & _).
  unfold analyzeSentiment, analyzeSentiment64. cbv zeta.
  rewrite He, Hi. cbn [bind]. do 2 eexists.
  split; [reflexivity|]. split; [reflexivity|].
  cbn [Analysis64.sentiment Analysis64.emotion Analysis64.intent
       Analysis.sentiment Analysis.emotion Analysis.intent].
  split; [|split; reflexivity].
  now destruct (combine64_three
                  (vaderSentiment (cleanText text))
                  (keywordSentiment (cleanText text))
                  (patternSentiment (cleanText text))) as (m & _ & _ & ->).
Qed.

(** ** The claims *)

(** C1.  For the text "I want to kill myself" the analyzer returns the emotion
    suicidal, [detectCrisisLevel] of its result is 5, and the flag type the
    handler derives from that level is "suicidal". *)
Theorem kill_myself_is_level_5_suicidal :
  exists a,
    analyzeSentiment "I want to kill myself" = Ok a /\
    Analysis.emotion a = Emotion.suicidal /\
    detectCrisisLevel a = 5 /\
    crisis_flag_type (detectCrisisLevel a) = Some "suicidal".
Proof.
  eexists. split; [vm_compute; reflexivity|].
  vm_compute. repeat split.
Qed.

(** C2.  For every analysis, [detectCrisisLevel] is the clamp to [0,5] of
    the sum of the specification's four terms (sentiment: +1 negative, -1
    positive; emotion: +5 suicidal, +3 depression, +2 anxiety, +2 anger, +1
    loneliness; confidence: +1 above 80 and +1 more above 90; intent: +1 for
    help_request), so the level always lies between 0 and 5. *)
Theorem detectCrisisLevel_additive_clamped (a : Analysis.t) :
  detectCrisisLevel a = spec_clamp 0 5 (spec_crisis_sum a) /\
  0 <= detectCrisisLevel a <= 5.
Proof.
  split; [|unfold detectCrisisLevel; lia].
  unfold detectCrisisLevel, spec_crisis_sum, spec_confidence_term, spec_clamp.
  rewrite !Qgtb_decide.
  destruct a as [s e i c sc].
  cbn [Analysis.sentiment Analysis.emotion Analysis.intent Analysis.confidence].
  destruct (Qlt_le_dec 80 c), (Qlt_le_dec 90 c); destruct s, e, i; reflexivity.
Qed.

(** C3.  For every text the analyzer returns, and the confidence of its
    result lies between 0 and 100. *)
Theorem confidence_between_0_and_100 (text : string) :
  exists a,
    analyzeSentiment text = Ok a /\
    (0 <= Analysis.confidence a)%Q /\ (Analysis.confidence a <= 100)%Q.
Proof.
  destruct (analyzeSentiment_returns text) as (e & i & Ha). cbv zeta in Ha.
  eexists. split; [exact Ha|]. cbn [Analysis.confidence].
  destruct (combine_three_confidence
              (vaderSentiment (cleanText text))
              (keywordSentiment (cleanText text))
              (patternSentiment (cleanText text))) as (m & Hm & Hc).
  destruct (calculateConfidence_bounds _ e i m Hm Hc) as [Hlow Hhigh].
  split; [|exact Hhigh].
  eapply Qle_trans; [|exact Hlow].
  apply Qle_bool_iff. vm_compute. reflexivity.
Qed.

(** C4, as stated, fails on the empty text: the three scorers all vote
    neutral, the combined confidence is 3/3, and the analyzer returns
    confidence 100, not 0. *)
Lemma empty_text_confidence_is_not_0 :
  whitespace_only "" = true /\
  ~ (exists a,
        analyzeSentiment "" = Ok a /\
        Analysis.sentiment a = Sentiment.neutral /\
        Analysis.emotion a = Emotion.neutral /\
        Analysis.intent a = Intent.general /\
        (Analysis.confidence a == 0)%Q).
Proof.
  split; [reflexivity|].
  intros (a & Ha & _ & _ & _ & Hc).
  vm_compute in Ha. inversion Ha; subst a.
  vm_compute in Hc. discriminate Hc.
Qed.

(** C4, amended.  The analyzer returns for every text, and for every empty
    or white-space-only text its result is sentiment neutral, emotion
    neutral, intent general and confidence 100. *)
Theorem whitespace_text_is_neutral_with_confidence_100 (text : string) :
  (exists a, analyzeSentiment text = Ok a) /\
  (whitespace_only text = true ->
   exists a,
     analyzeSentiment text = Ok a /\
     Analysis.sentiment a = Sentiment.neutral /\
     Analysis.emotion a = Emotion.neutral /\
     Analysis.intent a = Intent.general /\
     (Analysis.confidence a == 100)%Q).
Proof.
  split.
  - destruct (analyzeSentiment_returns text) as (e & i & Ha).
    eexists. exact Ha.
  - intro H.
    rewrite (analyzeSentiment_cleanText text "")
      by (now rewrite cleanText_whitespace).
    eexists. split; [vm_compute; reflexivity|].
    repeat split.
Qed.

Lemma whitespace_text_witness :
  whitespace_only (String "009" (String " " (String "010" ""))) = true /\
  exists a,
    analyzeSentiment (String "009" (String " " (String "010" ""))) = Ok a /\
    Analysis.sentiment a = Sentiment.neutral /\
    Analysis.emotion a = Emotion.neutral /\
    Analysis.intent a = Intent.general /\
    (Analysis.confidence a == 100)%Q.
Proof.
  split; [reflexivity|].
  apply (proj2 (whitespace_text_is_neutral_with_confidence_100
                  (String "009" (String " " (String "010" ""))))).
  reflexivity.
Defined.

(** C5.  Given the three scorer results, the combiner returns a label with
    the most votes, its confidence is that label's votes over 3, and a label
    with as many votes as the returned one is never preferred to it in the
    order positive, negative, neutral. *)
Theorem combiner_majority_with_preference (r1 r2 r3 : Score) :
  let scores := [r1; r2; r3] in
  let c := combineSentiments scores in
  let winner := Combined.sentiment c in
  (forall label, votes scores label <= votes scores winner) /\
  Combined.confidence c = (inject_Z (votes scores winner) / 3)%Q /\
  (forall label, votes scores label = votes scores winner ->
                 preference winner <= preference label).
Proof.
  destruct (combineSentiments_votes [r1; r2; r3]) as (Hmax & Htie & Hconf).
  cbv zeta. split; [exact Hmax | split; [exact Hconf | exact Htie]].
Qed.

Lemma combiner_three_way_tie_witness :
  votes [VaderScore Sentiment.negative (-1 # 4) 0 1;
         KeywordScore Sentiment.neutral 0;
         PatternScore Sentiment.positive 1]
        Sentiment.negative
  = votes [VaderScore Sentiment.negative (-1 # 4) 0 1;
           KeywordScore Sentiment.neutral 0;
           PatternScore Sentiment.positive 1]
          (Combined.sentiment
             (combineSentiments
                [VaderScore Sentiment.negative (-1 # 4) 0 1;
                 KeywordScore Sentiment.neutral 0;
                 PatternScore Sentiment.positive 1])) /\
  preference
    (Combined.sentiment
       (combineSentiments
          [VaderScore Sentiment.negative (-1 # 4) 0 1;
           KeywordScore Sentiment.neutral 0;
           PatternScore Sentiment.positive 1]))
  <= preference Sentiment.negative.
Proof.
  split; [reflexivity|].
  apply (proj2 (proj2 (combiner_majority_with_preference
                         (VaderScore Sentiment.negative (-1 # 4) 0 1)
                         (KeywordScore Sentiment.neutral 0)
                         (PatternScore Sentiment.positive 1)))).
  reflexivity.
Defined.

(** C6, as stated, fails on "sad worried": anxiety (declared first) and
    depression (declared second) both match once, no category matches more,
    and [detectEmotion] returns depression.  Likewise "help hello" matches
    help_request and greeting once each and [detectIntent] returns
    greeting. *)
Lemma first_declared_fails_on_ties :
  ~ (exists e,
        detectEmotion "sad worried" = Ok e /\
        first_declared_max emotionKeywords Emotion.neutral "sad worried" e) /\
  ~ (exists i,
        detectIntent "help hello" = Ok i /\
        first_declared_max intentKeywords Intent.general "help hello" i).
Proof.
  split.
  - intros (e & He & Hfirst). vm_compute in He. inversion He; subst e.
    destruct Hfirst as [[Hno _] | (before & kws & after & Hlex & _ & Hb & _)].
    + inversion Hno as [|? ? Hzero _]. vm_compute in Hzero. discriminate Hzero.
    + unfold emotionKeywords in Hlex.
      destruct before as [|b0 before]; [discriminate Hlex|].
      injection Hlex as Hb0 Hlex. subst b0.
      inversion Hb as [|? ? Hlt _]; subst.
      destruct before as [|b1 before].
      * injection Hlex as Hk _. subst kws. vm_compute in Hlt. discriminate Hlt.
      * injection Hlex as _ Hlex.
        repeat (destruct before as [|? before];
                [discriminate Hlex | injection Hlex as _ Hlex]).
        destruct before; discriminate Hlex.
  - intros (i & Hi & Hfirst). vm_compute in Hi. inversion Hi; subst i.
    destruct Hfirst as [[Hno _] | (before & kws & after & Hlex & _ & Hb & _)].
    + inversion Hno as [|? ? Hzero _]. vm_compute in Hzero. discriminate Hzero.
    + unfold intentKeywords in Hlex.
      destruct before as [|b0 before]; [discriminate Hlex|].
      injection Hlex as Hb0 Hlex. subst b0.
      inversion Hb as [|? ? Hlt _]; subst.
      destruct before as [|b1 before].
      * injection Hlex as Hk _. subst kws. vm_compute in Hlt. discriminate Hlt.
      * injection Hlex as _ Hlex.
        repeat (destruct before as [|? before];
                [discriminate Hlex | injection Hlex as _ Hlex]).
        destruct before; discriminate Hlex.
Qed.

(** C6, amended.  Both detectors return for every text, and whenever several
    categories share the greatest match count the one declared last in the
    lexicon is returned: every category declared after the returned one has
    strictly fewer matches, and none declared before it has more. *)
Theorem detector_ties_go_to_last_declared (text : string) :
  (exists e,
      detectEmotion text = Ok e /\
      last_declared_max emotionKeywords Emotion.neutral text e) /\
  (exists i,
      detectIntent text = Ok i /\
      last_declared_max intentKeywords Intent.general text i).
Proof.
  split; [apply detectEmotion_returns | apply detectIntent_returns].
Qed.

(** C7, as stated, fails: on the empty list the aggregator returns no trend
    value at all, so there is none with empty distributions and a message
    count of 0. *)
Lemma aggregate_empty_is_not_a_trend :
  ~ (exists t,
        analyzeConversationHistory [] = Ok (Some t) /\
        Trend.sentiment_distribution t = [] /\
        Trend.emotion_distribution t = [] /\
        Trend.message_count t = 0).
Proof. intros (t & Ht & _). vm_compute in Ht. discriminate Ht. Qed.

(** C7, amended.  On the empty message list the aggregator does not throw;
    it returns [null], not a trend object. *)
Theorem aggregate_empty_is_null :
  analyzeConversationHistory [] = Ok None.
Proof.
  unfold analyzeConversationHistory.
  cbn [List.length Nat.eqb]. reflexivity.
Qed.

(** C8.  The aggregator on a list that holds one bot-authored message and no
    user-authored one: both label arrays stay empty, [getDominant] reduces
    an empty array of entries without an initial value, and the call throws
    a TypeError. *)
Theorem aggregate_throws_without_user_message :
  analyzeConversationHistory [Message.Build "bot" "How are you feeling today?"]
  = Throw (TypeError "Reduce of empty array with no initial value").
Proof. vm_compute. reflexivity. Qed.

(** C9, as stated, fails: "grateful" is a keyword of the intent gratitude, so
    the intent returned for "I am happy and grateful" is not general. *)
Lemma happy_and_grateful_intent_is_not_general :
  ~ (exists a,
        analyzeSentiment "I am happy and grateful" = Ok a /\
        Analysis.sentiment a = Sentiment.positive /\
        Analysis.emotion a = Emotion.happiness /\
        Analysis.intent a = Intent.general /\
        (0 < Analysis.confidence a)%Q).
Proof.
  intros (a & Ha & _ & _ & Hi & _).
  vm_compute in Ha. inversion Ha; subst a.
  cbn in Hi. discriminate Hi.
Qed.

(** C9, amended.  For the text "I am happy and grateful" the analyzer returns
    sentiment positive, emotion happiness, intent gratitude and a confidence
    above 0. *)
Theorem happy_and_grateful_is_gratitude :
  exists a,
    analyzeSentiment "I am happy and grateful" = Ok a /\
    Analysis.sentiment a = Sentiment.positive /\
    Analysis.emotion a = Emotion.happiness /\
    Analysis.intent a = Intent.gratitude /\
    (0 < Analysis.confidence a)%Q.
Proof.
  eexists. split; [vm_compute; reflexivity|].
  repeat split.
Qed.

(** C10, as stated, fails on "love badly".  The lexical scorer votes
    positive, the keyword scorer negative ("bad" occurs in "badly") and the
    pattern scorer neutral; the combined confidence is 1/3, no boost applies,
    and the confidence is the double 1/3*100 = 33.333333333333329, whose
    exact value 4691249611844266 / 2^47 is below 100/3.  It is also below
    the double 100/3 = 33.333333333333336, so the comparison
    [confidence >= 100/3] of the program is false as well. *)
Lemma confidence_below_100_thirds_on_love_badly :
  (exists a q,
      analyzeSentiment64 "love badly" = Ok a /\
      exact_value (Analysis64.confidence a) = Some q /\
      (q < 100 / 3)%Q) /\
  ~ (exists a,
        analyzeSentiment64 "love badly" = Ok a /\
        (number 100 / number 3 <=? Analysis64.confidence a)%float = true).
Proof.
  split.
  - do 2 eexists. split; [vm_compute; reflexivity|].
    split; [vm_compute; reflexivity|]. reflexivity.
  - intros (a & Ha & Hle). vm_compute in Ha. injection Ha as <-.
    vm_compute in Hle. discriminate Hle.
Qed.

(** C10, amended.  For every text the analyzer returns a result whose
    combined sentiment confidence is at least 1/3 (the winning label has at
    least one of the three votes), whose confidence is at least the combined
    confidence scaled by 100 and capped at 100 (the boosts are not
    negative), hence at least the double 1/3*100 (33.333333333333329, just
    below 100/3), and so never 0, the empty text included. *)
Theorem confidence_at_least_a_third_times_100 (text : string) :
  exists a,
    analyzeSentiment64 text = Ok a /\
    (number 1 / number 3
     <=? Combined64.confidence (Scores64.combined (Analysis64.scores a)))%float
    = true /\
    (Math_min64
       (Combined64.confidence (Scores64.combined (Analysis64.scores a))
        * number 100) (number 100)
     <=? Analysis64.confidence a)%float = true /\
    (number 1 / number 3 * number 100 <=? Analysis64.confidence a)%float
    = true /\
    (Analysis64.confidence a =? number 0)%float = false.
Proof.
  destruct (analyzeSentiment64_returns text) as (e & i & Ha). cbv zeta in Ha.
  eexists. split; [exact Ha|].
  cbn [Analysis64.confidence Analysis64.scores Scores64.combined].
  destruct (combine64_three
              (vaderSentiment (cleanText text))
              (keywordSentiment (cleanText text))
              (patternSentiment (cleanText text))) as (m & Hm & Hc & _).
  destruct (combineSentiments64
              [vaderSentiment (cleanText text);
               keywordSentiment (cleanText text);
               patternSentiment (cleanText text)]) as [s c].
  cbn [Combined64.confidence] in *. subst c.
  assert (Hcases : m = 1 \/ m = 2 \/ m = 3) by lia.
  destruct Hcases as [-> | [-> | ->]]; destruct e, i;
    repeat split; vm_compute; reflexivity.
Qed.

(** * Further properties of the edge function *)

(** ** The shape of a cleaned text *)

Lemma lowered_kept_char (c : ascii) :
  is_letter (lower_char c) || is_space (lower_char c) = true ->
  is_lower_letter (lower_char c) || is_space (lower_char c) = true.
Proof.
  destruct c as [[] [] [] [] [] [] [] []]; intro H; vm_compute in H;
    try discriminate H; reflexivity.
Qed.

Lemma blank_char (c : ascii) :
  is_blank c = true -> c = " "%char /\ is_space c = true.
Proof.
  unfold is_blank. intro H. apply Ascii.eqb_eq in H. subst. split; reflexivity.
Qed.

Lemma lower_letter_char (c : ascii) :
  is_lower_letter c = true ->
  is_space c = false /\ is_blank c = false /\ lower_char c = c /\
  is_letter c = true.
Proof.
  destruct c as [[] [] [] [] [] [] [] []]; intro H; vm_compute in H;
    try discriminate H; repeat split.
Qed.

Lemma space_not_blank_or_letter (c : ascii) :
  is_space c = false -> is_blank c = false.
Proof.
  intro H. destruct (is_blank c) eqn:E; [|reflexivity].
  apply blank_char in E. destruct E as [_ E]. congruence.
Qed.

Lemma lowered_kept (text : string) :
  all_chars (fun c => is_lower_letter c || is_space c)
    (remove_outside (fun c => is_letter c || is_space c) (toLowerCase text))
  = true.
Proof.
  induction text as [|c text IH]; [reflexivity|].
  cbn [toLowerCase remove_outside].
  destruct (is_letter (lower_char c) || is_space (lower_char c)) eqn:E;
    [|exact IH].
  cbn [all_chars]. now rewrite (lowered_kept_char c E), IH.
Qed.

Lemma replace_space_runs_spaced (in_run : bool) (s : string) :
  all_chars (fun c => is_lower_letter c || is_space c) s = true ->
  spaced in_run (replace_space_runs in_run s) = true.
Proof.
  revert in_run. induction s as [|c s IH]; intros in_run H; [reflexivity|].
  cbn [all_chars] in H. apply andb_true_iff in H. destruct H as [Hc Hs].
  cbn [replace_space_runs]. destruct (is_space c) eqn:Espace.
  - destruct in_run; [now apply IH|].
    cbn [spaced]. change (is_blank " ") with true. cbn [negb andb].
    now apply IH.
  - rewrite orb_false_r in Hc. cbn [spaced].
    rewrite (space_not_blank_or_letter c Espace), Hc. cbn [andb].
    now apply IH.
Qed.

Lemma spaced_weaken (b : bool) (s : string) :
  spaced b s = true -> spaced false s = true.
Proof.
  destruct s as [|c s]; [reflexivity|]. cbn [spaced].
  destruct (is_blank c); [|auto]. intro H. apply andb_true_iff in H.
  destruct H as [_ H]. now rewrite H.
Qed.

Lemma trimStart_spaced (b : bool) (s : string) :
  spaced b s = true -> spaced true (trimStart s) = true.
Proof.
  revert b. induction s as [|c s IH]; intros b H; [reflexivity|].
  cbn [spaced] in H. cbn [trimStart]. destruct (is_blank c) eqn:E.
  - destruct (blank_char c E) as [_ ->].
    apply andb_true_iff in H. destruct H as [_ H]. now apply (IH true).
  - apply andb_true_iff in H. destruct H as [Hc Hs].
    destruct (lower_letter_char c Hc) as (-> & _).
    cbn [spaced]. now rewrite E, Hc, Hs.
Qed.

Lemma spaced_cons (b : bool) (c : ascii) (s : string) :
  spaced b (String c s)
  = if is_blank c then negb b && spaced true s
    else is_lower_letter c && spaced false s.
Proof. reflexivity. Qed.

Lemma trimEnd_spaced (b : bool) (s : string) :
  spaced b s = true ->
  spaced b (trimEnd s) = true /\ last_is_blank (trimEnd s) = false.
Proof.
  revert b. induction s as [|c s IH]; intros b H; [split; reflexivity|].
  rewrite spaced_cons in H. cbn [trimEnd]. destruct (is_blank c) eqn:E.
  - destruct (blank_char c E) as [_ Espace].
    apply andb_true_iff in H. destruct H as [Hb Hs].
    destruct (IH true Hs) as [Ht Hlast].
    destruct (trimEnd s) as [|d t] eqn:Et; cbv iota.
    + rewrite Espace. split; reflexivity.
    + split; [now rewrite spaced_cons, E, Hb, Ht | exact Hlast].
  - apply andb_true_iff in H. destruct H as [Hc Hs].
    destruct (lower_letter_char c Hc) as (Espace & _).
    destruct (IH false Hs) as [Ht Hlast].
    destruct (trimEnd s) as [|d t] eqn:Et; cbv iota.
    + rewrite Espace. split; [now rewrite spaced_cons, E, Hc | exact E].
    + split; [now rewrite spaced_cons, E, Hc, Ht | exact Hlast].
Qed.

Lemma cleanText_spaced (text : string) :
  spaced true (cleanText text) = true /\
  last_is_blank (cleanText text) = false.
Proof.
  unfold cleanText, trim.
  pose proof (replace_space_runs_spaced false _ (lowered_kept text)) as H.
  apply trimStart_spaced in H. now apply trimEnd_spaced in H.
Qed.

(** X1.  Whatever the text, [cleanText] returns lower-case letters separated
    by single blanks: no other character, no blank at either end, no two
    blanks in a row. *)
Theorem cleanText_tidy (text : string) : tidy (cleanText text) = true.
Proof.
  unfold tidy. destruct (cleanText_spaced text) as [-> ->]. reflexivity.
Qed.

Lemma spaced_toLowerCase (b : bool) (s : string) :
  spaced b s = true -> toLowerCase s = s.
Proof.
  revert b. induction s as [|c s IH]; intros b H; [reflexivity|].
  cbn [spaced] in H. cbn [toLowerCase]. destruct (is_blank c) eqn:E.
  - destruct (blank_char c E) as [-> _].
    apply andb_true_iff in H. destruct H as [_ H].
    now rewrite (IH true H).
  - apply andb_true_iff in H. destruct H as [Hc Hs].
    destruct (lower_letter_char c Hc) as (_ & _ & -> & _).
    now rewrite (IH false Hs).
Qed.

Lemma spaced_remove_outside (b : bool) (s : string) :
  spaced b s = true ->
  remove_outside (fun c => is_letter c || is_space c) s = s.
Proof.
  revert b. induction s as [|c s IH]; intros b H; [reflexivity|].
  cbn [spaced] in H. cbn [remove_outside]. destruct (is_blank c) eqn:E.
  - destruct (blank_char c E) as [_ ->]. rewrite orb_true_r.
    apply andb_true_iff in H. destruct H as [_ H].
    now rewrite (IH true H).
  - apply andb_true_iff in H. destruct H as [Hc Hs].
    destruct (lower_letter_char c Hc) as (_ & _ & _ & ->). cbn [orb].
    now rewrite (IH false Hs).
Qed.

Lemma spaced_replace_space_runs (b : bool) (s : string) :
  spaced b s = true -> replace_space_runs b s = s.
Proof.
  revert b. induction s as [|c s IH]; intros b H; [reflexivity|].
  cbn [spaced] in H. cbn [replace_space_runs]. destruct (is_blank c) eqn:E.
  - destruct (blank_char c E) as [-> Espace]. rewrite Espace.
    apply andb_true_iff in H. destruct H as [Hb H].
    apply negb_true_iff in Hb. subst b. now rewrite (IH true H).
  - apply andb_true_iff in H. destruct H as [Hc Hs].
    destruct (lower_letter_char c Hc) as (-> & _).
    now rewrite (IH false Hs).
Qed.

Lemma spaced_trimStart (s : string) :
  spaced true s = true -> trimStart s = s.
Proof.
  destruct s as [|c s]; [reflexivity|]. cbn [spaced trimStart].
  destruct (is_blank c); [discriminate|]. intro H.
  apply andb_true_iff in H. destruct H as [Hc _].
  now destruct (lower_letter_char c Hc) as (-> & _).
Qed.

Lemma spaced_trimEnd (b : bool) (s : string) :
  spaced b s = true -> last_is_blank s = false -> trimEnd s = s.
Proof.
  revert b. induction s as [|c s IH]; intros b H Hlast; [reflexivity|].
  cbn [trimEnd]. cbn [spaced] in H. cbn [last_is_blank] in Hlast.
  destruct s as [|d s].
  - cbn [trimEnd]. rewrite Hlast in H.
    apply andb_true_iff in H. destruct H as [Hc _].
    now destruct (lower_letter_char c Hc) as (-> & _).
  - assert (Hs : spaced (is_blank c) (String d s) = true).
    { destruct (is_blank c); apply andb_true_iff in H; tauto. }
    now rewrite (IH _ Hs Hlast).
Qed.

Lemma tidy_cleanText (s : string) : tidy s = true -> cleanText s = s.
Proof.
  unfold tidy. intro H. apply andb_true_iff in H. destruct H as [Hs Hlast].
  apply negb_true_iff in Hlast. unfold cleanText, trim.
  rewrite (spaced_toLowerCase _ _ Hs), (spaced_remove_outside _ _ Hs).
  rewrite (spaced_replace_space_runs _ _ (spaced_weaken _ _ Hs)).
  rewrite (spaced_trimStart _ Hs). exact (spaced_trimEnd _ _ Hs Hlast).
Qed.

(** X2.  Cleaning is idempotent: a cleaned text is left as it is by
    [cleanText]. *)
Theorem cleanText_idempotent (text : string) :
  cleanText (cleanText text) = cleanText text.
Proof.
  apply tidy_cleanText. unfold tidy.
  destruct (cleanText_spaced text) as [-> ->]. reflexivity.
Qed.

Lemma all_lower_letters_snoc (word : string) (c : ascii) :
  all_lower_letters word = true -> is_lower_letter c = true ->
  all_lower_letters (word ++ String c EmptyString) = true.
Proof.
  intros Hw Hc. induction word as [|d word IH]; cbn [append all_lower_letters].
  - now rewrite Hc.
  - cbn [all_lower_letters] in Hw. apply andb_true_iff in Hw.
    destruct Hw as [Hd Hw]. now rewrite Hd, IH.
Qed.

Lemma snoc_not_empty (word : string) (c : ascii) :
  String.eqb (word ++ String c EmptyString) "" = false.
Proof. destruct word; reflexivity. Qed.

Lemma split_from_words (s word : string) (after_blank : bool) :
  all_lower_letters word = true ->
  spaced after_blank s = true ->
  last_is_blank s = false ->
  (if after_blank then word = EmptyString /\ s <> EmptyString
   else String.eqb word "" = false) ->
  forallb is_word (split_from " " word s) = true.
Proof.
  revert word after_blank.
  induction s as [|c s IH]; intros word after_blank Hword Hs Hlast Hstate.
  - cbn [split_from forallb]. unfold is_word.
    destruct after_blank; [destruct Hstate; congruence|].
    now rewrite Hstate, Hword.
  - cbn [split_from]. rewrite spaced_cons in Hs.
    change (Ascii.eqb c " ") with (is_blank c).
    cbn [last_is_blank] in Hlast.
    destruct (is_blank c) eqn:E.
    + apply andb_true_iff in Hs. destruct Hs as [Hb Hs].
      apply negb_true_iff in Hb. subst after_blank.
      cbn [forallb]. unfold is_word at 1. rewrite Hstate, Hword. cbn [negb andb].
      destruct s as [|d s]; [discriminate Hlast|].
      apply (IH EmptyString true); auto. split; [reflexivity | discriminate].
    + apply andb_true_iff in Hs. destruct Hs as [Hc Hs].
      apply (IH (word ++ String c EmptyString)%string false).
      * now apply all_lower_letters_snoc.
      * exact Hs.
      * destruct s; [reflexivity | exact Hlast].
      * apply snoc_not_empty.
Qed.

(** X3.  The pieces into which the scorer splits a cleaned text at blanks are
    words, each a non-empty run of lower-case letters, unless the cleaned
    text is empty (and then the only piece is the empty string). *)
Theorem cleaned_text_splits_into_words (text : string) :
  cleanText text <> EmptyString ->
  forallb is_word (split (cleanText text) " ") = true.
Proof.
  intro Hne. destruct (cleanText_spaced text) as [Hs Hlast].
  unfold split. apply (split_from_words _ EmptyString true); auto.
Qed.

Lemma cleaned_text_words_witness :
  cleanText "  Hello,   World! " <> EmptyString /\
  forallb is_word (split (cleanText "  Hello,   World! ") " ") = true.
Proof.
  split; [vm_compute; discriminate|].
  apply (cleaned_text_splits_into_words "  Hello,   World! ").
  vm_compute. discriminate.
Defined.

(** ** The three scorers *)

Lemma Qgtb_div (a M num : Z) (den : positive) :
  0 < M ->
  Qgtb (inject_Z a / inject_Z M) (num # den) = (num * M <? a * Zpos den).
Proof.
  intro HM. destruct M as [|m|m]; try lia.
  unfold Qgtb, Qle_bool, Qdiv, Qmult, Qinv, inject_Z. cbn [Qnum Qden].
  rewrite !Z.mul_1_r, Pos.mul_1_l.
  destruct (num * Z.pos m <? a * Z.pos den) eqn:E.
  - apply Z.ltb_lt in E. apply negb_true_iff. apply Z.leb_gt. lia.
  - apply Z.ltb_ge in E. apply negb_false_iff. apply Z.leb_le. lia.
Qed.

Lemma Qltb_div (a M num : Z) (den : positive) :
  0 < M ->
  Qltb (inject_Z a / inject_Z M) (num # den) = (a * Zpos den <? num * M).
Proof.
  intro HM. destruct M as [|m|m]; try lia.
  unfold Qltb, Qle_bool, Qdiv, Qmult, Qinv, inject_Z. cbn [Qnum Qden].
  rewrite !Z.mul_1_r, Pos.mul_1_l.
  destruct (a * Z.pos den <? num * Z.pos m) eqn:E.
  - apply Z.ltb_lt in E. apply negb_true_iff. apply Z.leb_gt. lia.
  - apply Z.ltb_ge in E. apply negb_false_iff. apply Z.leb_le. lia.
Qed.

Lemma Qdiv_le (a M num : Z) (den : positive) :
  0 < M -> a * Zpos den <= num * M ->
  (inject_Z a / inject_Z M <= num # den)%Q.
Proof.
  intros HM H. destruct M as [|m|m]; try lia.
  unfold Qle, Qdiv, Qmult, Qinv, inject_Z. cbn [Qnum Qden].
  rewrite !Z.mul_1_r, Pos.mul_1_l. lia.
Qed.

Lemma Qdiv_ge (a M num : Z) (den : positive) :
  0 < M -> num * M <= a * Zpos den ->
  (num # den <= inject_Z a / inject_Z M)%Q.
Proof.
  intros HM H. destruct M as [|m|m]; try lia.
  unfold Qle, Qdiv, Qmult, Qinv, inject_Z. cbn [Qnum Qden].
  rewrite !Z.mul_1_r, Pos.mul_1_l. lia.
Qed.

Lemma split_from_length (sep : ascii) (word s : string) :
  (1 <= List.length (split_from sep word s))%nat.
Proof.
  revert word. induction s as [|c s IH]; intro word; cbn [split_from].
  - cbn. lia.
  - destruct (Ascii.eqb c sep); [cbn; lia | apply IH].
Qed.

Lemma word_counts_fold (pos neg : list string) (words : list string)
      (p0 n0 p n : Z) :
  (forall w, array_includes pos w = true -> array_includes neg w = false) ->
  fold_left
    (fun '(positiveCount, negativeCount) word =>
       (if array_includes pos word then positiveCount + 1 else positiveCount,
        if array_includes neg word then negativeCount + 1 else negativeCount))
    words (p0, n0) = (p, n) ->
  p0 <= p /\ n0 <= n /\ p + n <= p0 + n0 + Z.of_nat (List.length words).
Proof.
  intro Hdisjoint. revert p0 n0.
  induction words as [|w words IH]; intros p0 n0 H.
  - cbn in H. inversion H; subst. cbn. lia.
  - cbn [fold_left] in H. apply IH in H. cbn [List.length].
    destruct (array_includes pos w) eqn:Ep.
    + rewrite (Hdisjoint w Ep) in H. lia.
    + destruct (array_includes neg w); lia.
Qed.

Lemma vader_lists_disjoint (w : string) :
  array_includes
    ["good"; "great"; "wonderful"; "excellent"; "amazing"; "love"; "joy";
     "happy"; "blessed"] w = true ->
  array_includes
    ["bad"; "terrible"; "awful"; "hate"; "angry"; "depressed"; "suicidal";
     "sad"; "hopeless"] w = false.
Proof.
  unfold array_includes at 1. intro H. apply existsb_exists in H.
  destruct H as (x & Hin & Heq). apply String.eqb_eq in Heq. subst x.
  cbn [In] in Hin.
  repeat (destruct Hin as [<- | Hin]; [reflexivity|]). contradiction.
Qed.

(** X4.  The lexical scorer on any text: a word is counted at most once (the
    two word lists share no word), so the two counts are non-negative and add
    up to at most the number of pieces of the text, the compound lies
    between -1 and 1, and the label is positive when the positive count
    exceeds the negative one by more than a tenth of the number of pieces,
    negative in the mirrored case, and neutral otherwise. *)
Theorem vaderSentiment_counts (text : string) :
  exists label compound p n,
    vaderSentiment text = VaderScore label compound p n /\
    0 <= p /\ 0 <= n /\
    p + n <= Z.of_nat (List.length (split text " ")) /\
    (-1 <= compound)%Q /\ (compound <= 1)%Q /\
    label = (if Z.of_nat (List.length (split text " ")) <? 10 * (p - n)
             then Sentiment.positive
             else if Z.of_nat (List.length (split text " ")) <? 10 * (n - p)
                  then Sentiment.negative
                  else Sentiment.neutral).
Proof.
  unfold vaderSentiment. cbv zeta.
  pose proof (split_from_length " " EmptyString text) as Hlen.
  fold (split text " ") in Hlen.
  set (words := split text " ") in *.
  match goal with
  | |- context [fold_left ?f words (0, 0)] =>
      destruct (fold_left f words (0, 0)) as [p n] eqn:E
  end.
  apply (word_counts_fold _ _ _ _ _ _ _ vader_lists_disjoint) in E.
  replace (Z.max (Z.of_nat (List.length words)) 1)
    with (Z.of_nat (List.length words)) by lia.
  do 4 eexists. split; [reflexivity|].
  repeat (split; [lia|]).
  split; [apply (Qdiv_ge _ _ (-1) 1); lia|].
  split; [apply (Qdiv_le _ _ 1 1); lia|].
  rewrite (Qgtb_div _ _ 1 10), (Qltb_div _ _ (-1) 10) by lia.
  repeat match goal with
         | |- context [?a <? ?b] => destruct (Z.ltb_spec a b)
         end; try reflexivity; lia.
Qed.

Lemma count_included_filter_from (text : string) (keywords : list string)
      (start : Z) :
  fold_left (fun score keyword =>
               if includes text keyword then score + 1 else score)
            keywords start
  = start + Z.of_nat (List.length (filter (includes text) keywords)).
Proof.
  revert start. induction keywords as [|k keywords IH]; intro start.
  - cbn. lia.
  - cbn [fold_left filter]. rewrite IH.
    destruct (includes text k); cbn [List.length]; lia.
Qed.

Lemma count_included_filter (text : string) (keywords : list string) :
  count_included text keywords
  = Z.of_nat (List.length (filter (includes text) keywords)).
Proof. unfold count_included. now rewrite count_included_filter_from. Qed.

Lemma count_included_zero (text : string) (keywords : list string) :
  count_included text keywords = 0 <->
  (forall k, In k keywords -> includes text k = false).
Proof.
  rewrite count_included_filter. split.
  - intros H k Hin. destruct (includes text k) eqn:E; [|reflexivity].
    assert (Hk : In k (filter (includes text) keywords))
      by (apply filter_In; auto).
    destruct (filter (includes text) keywords); [contradiction|].
    cbn [List.length] in H. lia.
  - intro H. induction keywords as [|k keywords IH]; [reflexivity|].
    cbn [filter]. rewrite (H k (or_introl eq_refl)).
    apply IH. intros k' Hk'. apply H. now right.
Qed.

Lemma count_matches_from (patterns : list regexp) (text : string) (start : Z) :
  start <= fold_left (fun matches pattern =>
                        if test pattern text then matches + 1 else matches)
                     patterns start.
Proof.
  revert start. induction patterns as [|re patterns IH]; intro start.
  - cbn. lia.
  - cbn [fold_left]. destruct (test re text).
    + specialize (IH (start + 1)). lia.
    + apply IH.
Qed.

Lemma count_matches_nonneg (patterns : list regexp) (text : string) :
  0 <= count_matches patterns text.
Proof. apply count_matches_from. Qed.

(** X5.  The keyword scorer on any text, with [p] and [n] the numbers of
    positive and negative keywords the text includes: the score lies between
    -1 and 1, and the label is positive exactly when 7 p > 13 n, negative
    exactly when 7 n > 13 p, and neutral otherwise (in particular when no
    keyword occurs). *)
Theorem keywordSentiment_label (text : string) :
  exists label score,
    keywordSentiment text = KeywordScore label score /\
    (-1 <= score)%Q /\ (score <= 1)%Q /\
    label =
      (if 13 * count_included text
                 ["sad"; "bad"; "terrible"; "depressed"; "angry"; "suicidal"]
          <? 7 * count_included text
                   ["happy"; "good"; "great"; "wonderful"; "excited";
                    "grateful"]
       then Sentiment.positive
       else if 13 * count_included text
                      ["happy"; "good"; "great"; "wonderful"; "excited";
                       "grateful"]
               <? 7 * count_included text
                        ["sad"; "bad"; "terrible"; "depressed"; "angry";
                         "suicidal"]
            then Sentiment.negative
            else Sentiment.neutral).
Proof.
  unfold keywordSentiment. cbv zeta.
  set (p := count_included text
              ["happy"; "good"; "great"; "wonderful"; "excited"; "grateful"]).
  set (n := count_included text
              ["sad"; "bad"; "terrible"; "depressed"; "angry"; "suicidal"]).
  assert (Hp : 0 <= p) by apply count_included_nonneg.
  assert (Hn : 0 <= n) by apply count_included_nonneg.
  destruct (Z.eqb_spec (p + n) 0) as [Hzero | Hpos].
  - do 2 eexists. split; [reflexivity|].
    split; [discriminate|]. split; [discriminate|].
    repeat match goal with
           | |- context [?a <? ?b] => destruct (Z.ltb_spec a b)
           end; try reflexivity; lia.
  - do 2 eexists. split; [reflexivity|].
    split; [apply (Qdiv_ge _ _ (-1) 1); lia|].
    split; [apply (Qdiv_le _ _ 1 1); lia|].
    rewrite (Qgtb_div _ _ 3 10), (Qltb_div _ _ (-3) 10) by lia.
    repeat match goal with
           | |- context [?a <? ?b] => destruct (Z.ltb_spec a b)
           end; try reflexivity; lia.
Qed.

(** X6.  The pattern scorer on any text returns a confidence between 1/2 and
    1: it divides only when one side has strictly more matches, so the
    divisor is never 0 and the winning share is above one half. *)
Theorem patternSentiment_confidence (text : string) :
  exists label confidence,
    patternSentiment text = PatternScore label confidence /\
    (1 # 2 <= confidence)%Q /\ (confidence <= 1)%Q.
Proof.
  unfold patternSentiment. cbv zeta.
  match goal with
  | |- context [count_matches ?pos text <? count_matches ?neg text] =>
      pose proof (count_matches_nonneg pos text);
      pose proof (count_matches_nonneg neg text);
      set (p := count_matches pos text) in *;
      set (n := count_matches neg text) in *
  end.
  destruct (Z.ltb_spec p n); destruct (Z.ltb_spec n p); try lia;
    do 2 eexists; (split; [reflexivity|]); split;
    try (apply (Qdiv_ge _ _ 1 2); lia);
    try (apply (Qdiv_le _ _ 1 1); lia);
    apply Qle_bool_iff; reflexivity.
Qed.

(** ** The combiner on any array of scores *)

Lemma votes_Permutation (scores scores' : list Score) (label : Sentiment.t) :
  Permutation scores scores' -> votes scores label = votes scores' label.
Proof.
  unfold votes. intro H. induction H as [|s l l' H IH|s s' l|l l' l'' H IH H' IH'].
  - reflexivity.
  - cbn [filter]. destruct (Sentiment.eqb (sentiment_of s) label);
      cbn [List.length]; lia.
  - cbn [filter].
    destruct (Sentiment.eqb (sentiment_of s) label),
             (Sentiment.eqb (sentiment_of s') label); reflexivity.
  - lia.
Qed.

(** X7.  The combiner does not depend on the order of the scores: any
    rearrangement of the array gives the same label and the same
    confidence. *)
Theorem combineSentiments_order_irrelevant (scores scores' : list Score) :
  Permutation scores scores' ->
  combineSentiments scores = combineSentiments scores'.
Proof.
  intro H. unfold combineSentiments. rewrite !tally_votes.
  rewrite (votes_Permutation _ _ Sentiment.positive H),
          (votes_Permutation _ _ Sentiment.negative H),
          (votes_Permutation _ _ Sentiment.neutral H),
          (Permutation_length H).
  reflexivity.
Qed.

Lemma combineSentiments_order_witness :
  Permutation
    [VaderScore Sentiment.negative (-1 # 4) 0 1;
     KeywordScore Sentiment.neutral 0;
     PatternScore Sentiment.positive 1]
    [PatternScore Sentiment.positive 1;
     VaderScore Sentiment.negative (-1 # 4) 0 1;
     KeywordScore Sentiment.neutral 0] /\
  combineSentiments
    [VaderScore Sentiment.negative (-1 # 4) 0 1;
     KeywordScore Sentiment.neutral 0;
     PatternScore Sentiment.positive 1]
  = combineSentiments
      [PatternScore Sentiment.positive 1;
       VaderScore Sentiment.negative (-1 # 4) 0 1;
       KeywordScore Sentiment.neutral 0].
Proof.
  assert (H : Permutation
                [VaderScore Sentiment.negative (-1 # 4) 0 1;
                 KeywordScore Sentiment.neutral 0;
                 PatternScore Sentiment.positive 1]
                [PatternScore Sentiment.positive 1;
                 VaderScore Sentiment.negative (-1 # 4) 0 1;
                 KeywordScore Sentiment.neutral 0]).
  { eapply perm_trans; [apply perm_skip; apply perm_swap | apply perm_swap]. }
  split; [exact H|].
  exact (combineSentiments_order_irrelevant _ _ H).
Defined.

(** X8.  Whatever the number of scores, as long as there is one, the
    confidence of the combiner lies between 1/3 and 1: with three labels the
    most voted one has at least a third of the votes. *)
Theorem combineSentiments_confidence_range (scores : list Score) :
  scores <> [] ->
  (1 # 3 <= Combined.confidence (combineSentiments scores))%Q /\
  (Combined.confidence (combineSentiments scores) <= 1)%Q.
Proof.
  intro Hne.
  destruct (combineSentiments_votes scores) as (Hmax & _ & ->).
  pose proof (votes_total scores) as Htotal.
  pose proof (Hmax Sentiment.positive). pose proof (Hmax Sentiment.negative).
  pose proof (Hmax Sentiment.neutral).
  pose proof (votes_nonneg scores Sentiment.positive).
  pose proof (votes_nonneg scores Sentiment.negative).
  pose proof (votes_nonneg scores Sentiment.neutral).
  assert (0 < Z.of_nat (List.length scores)).
  { destruct scores; [congruence | cbn [List.length]; lia]. }
  split; [apply (Qdiv_ge _ _ 1 3) | apply (Qdiv_le _ _ 1 1)];
    try assumption;
    destruct (Combined.sentiment (combineSentiments scores)); lia.
Qed.

Lemma combineSentiments_confidence_range_witness :
  [KeywordScore Sentiment.neutral 0; PatternScore Sentiment.positive 1;
   PatternScore Sentiment.negative 1; KeywordScore Sentiment.negative (-1)]
  <> [] /\
  (1 # 3 <= Combined.confidence
              (combineSentiments
                 [KeywordScore Sentiment.neutral 0;
                  PatternScore Sentiment.positive 1;
                  PatternScore Sentiment.negative 1;
                  KeywordScore Sentiment.negative (-1)]))%Q /\
  (Combined.confidence
     (combineSentiments
        [KeywordScore Sentiment.neutral 0;
         PatternScore Sentiment.positive 1;
         PatternScore Sentiment.negative 1;
         KeywordScore Sentiment.negative (-1)]) <= 1)%Q.
Proof.
  split; [discriminate|].
  apply combineSentiments_confidence_range. discriminate.
Defined.

(** ** Which category a detector returns *)

Lemma two_splits {A : Type} (l1 l2 l1' l2' : list A) (x y : A) :
  (l1 ++ x :: l2 = l1' ++ y :: l2')%list ->
  (l1 = l1' /\ x = y /\ l2 = l2') \/
  (In x l1' /\ In y l2) \/
  (In x l2' /\ In y l1).
Proof.
  revert l1'. induction l1 as [|a l1 IH]; intros l1' H.
  - destruct l1' as [|a' l1']; cbn [app] in H; injection H as Hx Hl.
    + left. auto.
    + right. left. subst. split; [now left|].
      apply in_or_app. right. now left.
  - destruct l1' as [|a' l1']; cbn [app] in H; injection H as Ha Hl.
    + right. right. subst. split; [|now left].
      apply in_or_app. right. now left.
    + subst a'. destruct (IH l1' Hl) as [(-> & -> & ->) | [[Hx Hy] | [Hx Hy]]].
      * left. auto.
      * right. left. split; [now right | exact Hy].
      * right. right. split; [exact Hx | now right].
Qed.

Section DetectCategory.
Context {K : Type} (eqb : K -> K -> bool).
Hypothesis eqb_eq : forall a b, eqb a b = true <-> a = b.

(** The category at a given place of the lexicon is returned exactly when
    it has a positive count that no earlier category exceeds and no later
    category reaches, or when it is the default and nothing matches. *)
Lemma detect_category_iff (lexicon before after : list (K * list string))
      (k default : K) (keywords : list string) (text : string) :
  NoDup (map fst lexicon) ->
  lexicon = (before ++ (k, keywords) :: after)%list ->
  detect eqb lexicon default text = Ok k <->
  (0 < count_included text keywords /\
   Forall (fun entry =>
             count_included text (snd entry) <= count_included text keywords)
          before /\
   Forall (fun entry =>
             count_included text (snd entry) < count_included text keywords)
          after) \/
  (k = default /\ no_match lexicon text).
Proof.
  intros Hnd Hlex.
  destruct (detect_last_declared_max eqb eqb_eq lexicon default text Hnd)
    as (r & Hr & Hmax).
  rewrite Hr. split.
  - intro H. injection H as ->.
    destruct Hmax as [[Hno ->] | (b' & kws' & a' & Hlex' & Hpos & Hb & Ha)];
      [right; auto|].
    left. rewrite Hlex in Hlex'.
    destruct (two_splits _ _ _ _ _ _ Hlex')
      as [(-> & Heq & ->) | [[Hin Hin'] | [Hin Hin']]].
    + injection Heq as ->. auto.
    + exfalso. rewrite Hlex, map_app in Hnd. cbn [map fst] in Hnd.
      apply NoDup_remove_2 in Hnd. apply Hnd. apply in_or_app. right.
      apply (in_map fst) in Hin'. exact Hin'.
    + exfalso. rewrite Hlex, map_app in Hnd. cbn [map fst] in Hnd.
      apply NoDup_remove_2 in Hnd. apply Hnd. apply in_or_app. left.
      apply (in_map fst) in Hin'. exact Hin'.
  - intros [(Hpos & Hb & Ha) | [-> Hno]].
    + f_equal.
      destruct Hmax as [[Hno _] | (b' & kws' & a' & Hlex' & Hpos' & Hb' & Ha')].
      * exfalso. unfold no_match in Hno. rewrite Hlex in Hno.
        apply Forall_app in Hno. destruct Hno as [_ Hno].
        inversion Hno as [|? ? Hzero _]. cbn [snd] in Hzero. lia.
      * rewrite Hlex in Hlex'.
        destruct (two_splits _ _ _ _ _ _ Hlex')
          as [(_ & Heq & _) | [[Hin Hin'] | [Hin Hin']]].
        -- now injection Heq.
        -- exfalso. rewrite Forall_forall in Hb', Ha.
           specialize (Hb' _ Hin). specialize (Ha _ Hin').
           cbn [snd] in Hb', Ha. lia.
        -- exfalso. rewrite Forall_forall in Ha', Hb.
           specialize (Ha' _ Hin). specialize (Hb _ Hin').
           cbn [snd] in Ha', Hb. lia.
    + f_equal.
      destruct Hmax as [[_ ->] | (b' & kws' & a' & Hlex' & Hpos' & _)];
        [reflexivity|].
      exfalso. unfold no_match in Hno. rewrite Hlex' in Hno.
      apply Forall_app in Hno. destruct Hno as [_ Hno].
      inversion Hno as [|? ? Hzero _]. cbn [snd] in Hzero. lia.
Qed.
End DetectCategory.

Lemma emotion_no_match (text : string) :
  no_match emotionKeywords text <-> (forall e, emotion_hits text e = 0).
Proof.
  unfold no_match, emotionKeywords. split.
  - intros H e.
    repeat (apply Forall_cons_iff in H; destruct H as [? H]).
    destruct e; try assumption. reflexivity.
  - intro H. repeat constructor.
    + exact (H Emotion.anxiety).
    + exact (H Emotion.depression).
    + exact (H Emotion.anger).
    + exact (H Emotion.happiness).
    + exact (H Emotion.loneliness).
    + exact (H Emotion.suicidal).
Qed.

Lemma intent_no_match (text : string) :
  no_match intentKeywords text <-> (forall i, intent_hits text i = 0).
Proof.
  unfold no_match, intentKeywords. split.
  - intros H i.
    repeat (apply Forall_cons_iff in H; destruct H as [? H]).
    destruct i; assumption.
  - intro H. repeat constructor.
    + exact (H Intent.help_request).
    + exact (H Intent.greeting).
    + exact (H Intent.gratitude).
    + exact (H Intent.meditation).
    + exact (H Intent.sleep).
    + exact (H Intent.general).
Qed.

(** X9.  [detectEmotion] returns neutral exactly when the text includes no
    keyword of any emotion category. *)
Theorem detectEmotion_neutral_iff (text : string) :
  detectEmotion text = Ok Emotion.neutral <->
  (forall e, emotion_hits text e = 0).
Proof.
  rewrite <- emotion_no_match.
  destruct (detectEmotion_returns text) as (r & Hr & Hmax). rewrite Hr.
  split.
  - intro H. injection H as ->.
    destruct Hmax as [[Hno _] | (b & kws & a & Hlex & _)]; [exact Hno|].
    exfalso.
    assert (Hin : In Emotion.neutral (map fst emotionKeywords)).
    { rewrite Hlex, map_app. apply in_or_app. right. now left. }
    cbn in Hin. intuition discriminate.
  - intro Hno. f_equal.
    destruct Hmax as [[_ ->] | (b & kws & a & Hlex & Hpos & _)]; [reflexivity|].
    exfalso. unfold no_match in Hno. rewrite Hlex in Hno.
    apply Forall_app in Hno. destruct Hno as [_ Hno].
    inversion Hno as [|? ? Hzero _]. cbn [snd] in Hzero. lia.
Qed.

Lemma detectEmotion_neutral_witness :
  detectEmotion "the weather is fine" = Ok Emotion.neutral.
Proof.
  apply (proj2 (detectEmotion_neutral_iff "the weather is fine")).
  intros []; reflexivity.
Defined.

(** X10.  [detectEmotion] returns suicidal exactly when the text includes a
    suicidal keyword and no emotion category has more matching keywords than
    the suicidal one: declared last, it wins every tie. *)
Theorem detectEmotion_suicidal_iff (text : string) :
  detectEmotion text = Ok Emotion.suicidal <->
  0 < emotion_hits text Emotion.suicidal /\
  (forall e, emotion_hits text e <= emotion_hits text Emotion.suicidal).
Proof.
  unfold detectEmotion.
  rewrite (detect_category_iff Emotion.eqb emotion_eqb_eq emotionKeywords
             (firstn 5 emotionKeywords) []
             Emotion.suicidal Emotion.neutral
             (keywords_of Emotion.eqb emotionKeywords Emotion.suicidal) text
             emotionKeywords_NoDup eq_refl).
  fold (emotion_hits text Emotion.suicidal). split.
  - intros [(Hpos & Hbefore & _) | [Heq _]]; [|discriminate Heq].
    split; [exact Hpos|]. intro e. cbn [firstn emotionKeywords] in Hbefore.
    repeat (apply Forall_cons_iff in Hbefore;
            destruct Hbefore as [? Hbefore]).
    destruct e; try assumption; [lia|].
    change (emotion_hits text Emotion.neutral) with 0. lia.
  - intros [Hpos Hall]. left. split; [exact Hpos|]. split; [|constructor].
    cbn [firstn emotionKeywords]. repeat constructor.
    + exact (Hall Emotion.anxiety).
    + exact (Hall Emotion.depression).
    + exact (Hall Emotion.anger).
    + exact (Hall Emotion.happiness).
    + exact (Hall Emotion.loneliness).
Qed.

Lemma detectEmotion_suicidal_witness :
  detectEmotion "i am sad and i want to die" = Ok Emotion.suicidal.
Proof.
  apply (proj2 (detectEmotion_suicidal_iff "i am sad and i want to die")).
  split; [reflexivity|]. intros []; vm_compute; discriminate.
Defined.

(** X11.  [detectIntent] returns help_request exactly when the text includes
    a help_request keyword and every other intent category has strictly
    fewer matching keywords: declared first, it loses every tie. *)
Theorem detectIntent_help_request_iff (text : string) :
  detectIntent text = Ok Intent.help_request <->
  0 < intent_hits text Intent.help_request /\
  (forall i, i <> Intent.help_request ->
             intent_hits text i < intent_hits text Intent.help_request).
Proof.
  unfold detectIntent.
  rewrite (detect_category_iff Intent.eqb intent_eqb_eq intentKeywords
             [] (skipn 1 intentKeywords)
             Intent.help_request Intent.general
             (keywords_of Intent.eqb intentKeywords Intent.help_request) text
             intentKeywords_NoDup eq_refl).
  fold (intent_hits text Intent.help_request). split.
  - intros [(Hpos & _ & Hafter) | [Heq _]]; [|discriminate Heq].
    split; [exact Hpos|]. intros i Hi. cbn [skipn intentKeywords] in Hafter.
    repeat (apply Forall_cons_iff in Hafter; destruct Hafter as [? Hafter]).
    destruct i; try assumption. congruence.
  - intros [Hpos Hall]. left. split; [exact Hpos|]. split; [constructor|].
    cbn [skipn intentKeywords]. repeat constructor.
    + apply (Hall Intent.greeting). discriminate.
    + apply (Hall Intent.gratitude). discriminate.
    + apply (Hall Intent.meditation). discriminate.
    + apply (Hall Intent.sleep). discriminate.
    + apply (Hall Intent.general). discriminate.
Qed.

Lemma detectIntent_help_request_witness :
  detectIntent "i need help and support" = Ok Intent.help_request.
Proof.
  apply (proj2 (detectIntent_help_request_iff "i need help and support")).
  split; [reflexivity|]. intros [] H; try congruence; reflexivity.
Defined.

(** X12.  [detectIntent] returns general in two cases only: the text
    includes no intent keyword at all, or it includes a keyword of the
    category general and no intent category has more matching keywords. *)
Theorem detectIntent_general_iff (text : string) :
  detectIntent text = Ok Intent.general <->
  (0 < intent_hits text Intent.general /\
   forall i, intent_hits text i <= intent_hits text Intent.general) \/
  (forall i, intent_hits text i = 0).
Proof.
  unfold detectIntent.
  rewrite (detect_category_iff Intent.eqb intent_eqb_eq intentKeywords
             (firstn 5 intentKeywords) []
             Intent.general Intent.general
             (keywords_of Intent.eqb intentKeywords Intent.general) text
             intentKeywords_NoDup eq_refl).
  fold (intent_hits text Intent.general). rewrite intent_no_match. split.
  - intros [(Hpos & Hbefore & _) | [_ Hno]]; [left | right; exact Hno].
    split; [exact Hpos|]. intro i. cbn [firstn intentKeywords] in Hbefore.
    repeat (apply Forall_cons_iff in Hbefore;
            destruct Hbefore as [? Hbefore]).
    destruct i; try assumption. lia.
  - intros [[Hpos Hall] | Hno]; [left | right; auto].
    split; [exact Hpos|]. split; [|constructor].
    cbn [firstn intentKeywords]. repeat constructor.
    + exact (Hall Intent.help_request).
    + exact (Hall Intent.greeting).
    + exact (Hall Intent.gratitude).
    + exact (Hall Intent.meditation).
    + exact (Hall Intent.sleep).
Qed.

Lemma detectIntent_general_witness :
  detectIntent "can we talk and chat" = Ok Intent.general.
Proof.
  apply (proj2 (detectIntent_general_iff "can we talk and chat")).
  left. split; [reflexivity|]. intros []; vm_compute; discriminate.
Defined.

(** ** Confidence and crisis level of an analysis *)

(** X13.  When the three scorers give a text the same label, the analyzer
    returns that label with confidence 100, whatever emotion and intent it
    detects: the combined confidence is 3/3 and the boosts are cut off by the
    cap. *)
Theorem unanimous_scorers_give_confidence_100 (text : string)
        (label : Sentiment.t) :
  sentiment_of (vaderSentiment (cleanText text)) = label ->
  sentiment_of (keywordSentiment (cleanText text)) = label ->
  sentiment_of (patternSentiment (cleanText text)) = label ->
  exists a,
    analyzeSentiment text = Ok a /\
    Analysis.sentiment a = label /\
    (Analysis.confidence a == 100)%Q.
Proof.
  intros Hv Hk Hp.
  destruct (analyzeSentiment_returns text) as (e & i & Ha). cbv zeta in Ha.
  eexists. split; [exact Ha|].
  cbn [Analysis.sentiment Analysis.confidence].
  assert (Hc : combineSentiments
                 [vaderSentiment (cleanText text);
                  keywordSentiment (cleanText text);
                  patternSentiment (cleanText text)]
               = Combined.Build label (inject_Z 3 / inject_Z 3)).
  { unfold combineSentiments. cbn [fold_left List.length].
    rewrite Hv, Hk, Hp. destruct label; reflexivity. }
  rewrite Hc. split; [reflexivity|].
  destruct e, i; vm_compute; reflexivity.
Qed.

Lemma unanimous_scorers_witness :
  exists a,
    analyzeSentiment "I am happy and grateful" = Ok a /\
    Analysis.sentiment a = Sentiment.positive /\
    (Analysis.confidence a == 100)%Q.
Proof.
  apply (unanimous_scorers_give_confidence_100
           "I am happy and grateful" Sentiment.positive); reflexivity.
Defined.

(** X14.  An analysis with the emotion suicidal always gets a crisis flag.
    Its level is 4 and the flag type "crisis" when the sentiment is positive,
    the confidence is at most 80 and the intent is not help_request; in every
    other case the level is 5 and the flag type "suicidal". *)
Theorem suicidal_emotion_is_always_flagged (a : Analysis.t) :
  Analysis.emotion a = Emotion.suicidal ->
  (Analysis.sentiment a = Sentiment.positive /\
   (Analysis.confidence a <= 80)%Q /\
   Analysis.intent a <> Intent.help_request ->
   detectCrisisLevel a = 4 /\
   crisis_flag_type (detectCrisisLevel a) = Some "crisis") /\
  (~ (Analysis.sentiment a = Sentiment.positive /\
      (Analysis.confidence a <= 80)%Q /\
      Analysis.intent a <> Intent.help_request) ->
   detectCrisisLevel a = 5 /\
   crisis_flag_type (detectCrisisLevel a) = Some "suicidal").
Proof.
  destruct a as [s e i c sc].
  cbn [Analysis.sentiment Analysis.emotion Analysis.intent Analysis.confidence].
  intros ->. unfold detectCrisisLevel.
  cbn [Analysis.sentiment Analysis.emotion Analysis.intent Analysis.confidence].
  rewrite !Qgtb_decide.
  destruct (Qlt_le_dec 80 c) as [H80 | H80],
           (Qlt_le_dec 90 c) as [H90 | H90];
    try absurd_order;
    destruct s, i; cbn; split;
    try (intros (Hs & Hc & Hi); try discriminate Hs; try congruence;
         try (exfalso; exact (Qlt_not_le _ _ H80 Hc)));
    try (intro Hnot; try (split; reflexivity);
         exfalso; apply Hnot; repeat split; [exact H80 | discriminate]);
    split; reflexivity.
Qed.

Lemma suicidal_emotion_witness :
  detectCrisisLevel
    (Analysis.Build Sentiment.positive Emotion.suicidal Intent.general
       (160 # 3)
       (Scores.Build (VaderScore Sentiment.negative (-1 # 6) 0 1)
          (KeywordScore Sentiment.neutral 0)
          (PatternScore Sentiment.positive 1)
          (Combined.Build Sentiment.positive (1 # 3)))) = 4 /\
  crisis_flag_type
    (detectCrisisLevel
       (Analysis.Build Sentiment.positive Emotion.suicidal Intent.general
          (160 # 3)
          (Scores.Build (VaderScore Sentiment.negative (-1 # 6) 0 1)
             (KeywordScore Sentiment.neutral 0)
             (PatternScore Sentiment.positive 1)
             (Combined.Build Sentiment.positive (1 # 3))))) = Some "crisis".
Proof.
  apply (proj1 (suicidal_emotion_is_always_flagged
                  (Analysis.Build Sentiment.positive Emotion.suicidal
                     Intent.general (160 # 3)
                     (Scores.Build (VaderScore Sentiment.negative (-1 # 6) 0 1)
                        (KeywordScore Sentiment.neutral 0)
                        (PatternScore Sentiment.positive 1)
                        (Combined.Build Sentiment.positive (1 # 3))))
                  eq_refl)).
  repeat split; [apply Qle_bool_iff; reflexivity | discriminate].
Defined.

(** X15.  For a text the analyzer classifies as suicidal, the handler always
    stores a flag.  When the three scorers give three different labels and
    the intent is not help_request, the combined sentiment is positive, the
    level is 4 and the flag type is "crisis"; in every other case the level
    is 5 and the flag type is "suicidal". *)
Theorem suicidal_text_is_always_flagged (text : string) :
  (exists a, analyzeSentiment text = Ok a) /\
  (forall a,
      analyzeSentiment text = Ok a ->
      Analysis.emotion a = Emotion.suicidal ->
      (three_way_split (Analysis.scores a) /\
       Analysis.intent a <> Intent.help_request ->
       detectCrisisLevel a = 4 /\
       crisis_flag_type (detectCrisisLevel a) = Some "crisis" /\
       Analysis.sentiment a = Sentiment.positive /\
       (Combined.confidence (Scores.combined (Analysis.scores a)) == 1 # 3)%Q) /\
      (~ (three_way_split (Analysis.scores a) /\
          Analysis.intent a <> Intent.help_request) ->
       detectCrisisLevel a = 5 /\
       crisis_flag_type (detectCrisisLevel a) = Some "suicidal")).
Proof.
  destruct (analyzeSentiment_returns text) as (e & i & Ha). cbv zeta in Ha.
  split; [eexists; exact Ha|].
  intros a Ha' He. rewrite Ha in Ha'. injection Ha' as <-.
  cbn [Analysis.emotion] in He. subst e.
  unfold three_way_split, detectCrisisLevel, calculateConfidence.
  cbn [Analysis.sentiment Analysis.emotion Analysis.intent Analysis.confidence
       Analysis.scores Scores.vader Scores.keyword Scores.pattern
       Scores.combined].
  unfold combineSentiments. cbn [fold_left List.length].
  remember (sentiment_of (vaderSentiment (cleanText text))) as sv eqn:Hv.
  remember (sentiment_of (keywordSentiment (cleanText text))) as sk eqn:Hk.
  remember (sentiment_of (patternSentiment (cleanText text))) as sp eqn:Hp.
  clear Ha Hv Hk Hp.
  destruct sv, sk, sp, i;
    (split;
     [ intros [(H1 & H2 & H3) Hi]; try congruence;
       repeat split; vm_compute; reflexivity
     | intro Hnot;
       first [ split; vm_compute; reflexivity
             | exfalso; apply Hnot; repeat split; discriminate ] ]).
Qed.

Lemma suicidal_text_witness :
  exists a,
    analyzeSentiment "I am content. Awful! I will kill myself" = Ok a /\
    detectCrisisLevel a = 4 /\
    crisis_flag_type (detectCrisisLevel a) = Some "crisis" /\
    Analysis.sentiment a = Sentiment.positive /\
    (Combined.confidence (Scores.combined (Analysis.scores a)) == 1 # 3)%Q.
Proof.
  destruct (proj1 (suicidal_text_is_always_flagged
                     "I am content. Awful! I will kill myself")) as [a Ha].
  exists a. split; [exact Ha|].
  pose proof Ha as Hvalue. vm_compute in Hvalue. injection Hvalue as Hvalue.
  assert (He : Analysis.emotion a = Emotion.suicidal)
    by (rewrite <- Hvalue; reflexivity).
  apply (proj1 (proj2 (suicidal_text_is_always_flagged
                         "I am content. Awful! I will kill myself") a Ha He)).
  rewrite <- Hvalue. repeat split; discriminate.
Defined.

(** X16.  The crisis level never goes down when the confidence goes up: two
    analyses with the same labels, the second with a confidence at least that
    of the first, get levels in the same order. *)
Theorem detectCrisisLevel_monotone_in_confidence
        (s : Sentiment.t) (e : Emotion.t) (i : Intent.t) (c c' : Q)
        (sc sc' : Scores.t) :
  (c <= c')%Q ->
  detectCrisisLevel (Analysis.Build s e i c sc)
  <= detectCrisisLevel (Analysis.Build s e i c' sc').
Proof.
  intro Hle. unfold detectCrisisLevel.
  cbn [Analysis.sentiment Analysis.emotion Analysis.intent Analysis.confidence].
  rewrite !Qgtb_decide.
  destruct (Qlt_le_dec 80 c), (Qlt_le_dec 90 c),
           (Qlt_le_dec 80 c'), (Qlt_le_dec 90 c');
    try absurd_order; destruct s, e, i; cbn; lia.
Qed.

Lemma detectCrisisLevel_monotone_witness :
  detectCrisisLevel
    (Analysis.Build Sentiment.negative Emotion.anxiety Intent.general 75
       (Scores.Build (KeywordScore Sentiment.negative (-1))
          (KeywordScore Sentiment.negative (-1))
          (KeywordScore Sentiment.neutral 0)
          (Combined.Build Sentiment.negative (2 # 3))))
  <= detectCrisisLevel
       (Analysis.Build Sentiment.negative Emotion.anxiety Intent.general 95
          (Scores.Build (KeywordScore Sentiment.negative (-1))
             (KeywordScore Sentiment.negative (-1))
             (KeywordScore Sentiment.neutral 0)
             (Combined.Build Sentiment.negative (2 # 3)))).
Proof.
  apply detectCrisisLevel_monotone_in_confidence.
  apply Qle_bool_iff. reflexivity.
Defined.

(** ** The reply and the conversation title *)

(** X17.  For every analysis the reply holds a template that is not empty and
    is the entry of [responses] for the analysis's own intent and sentiment
    (the fallback to the intent general is never needed), two analyses get
    the same template only if they agree on intent and sentiment, and the
    reply repeats the labels and the confidence of the analysis. *)
Theorem generateEnhancedResponse_template (message : string) (a : Analysis.t) :
  (exists template,
      Reply.response (generateEnhancedResponse message a) = Some template /\
      template <> EmptyString /\
      optional_get Sentiment.eqb
        (get Intent.eqb responses (Analysis.intent a)) (Analysis.sentiment a)
      = Some template) /\
  (forall message' a',
      Reply.response (generateEnhancedResponse message a)
      = Reply.response (generateEnhancedResponse message' a') ->
      Analysis.intent a = Analysis.intent a' /\
      Analysis.sentiment a = Analysis.sentiment a') /\
  Reply.sentiment (generateEnhancedResponse message a) = Analysis.sentiment a /\
  Reply.emotion (generateEnhancedResponse message a) = Analysis.emotion a /\
  Reply.confidence (generateEnhancedResponse message a)
  = Analysis.confidence a /\
  Reply.intent (generateEnhancedResponse message a) = Analysis.intent a.
Proof.
  destruct a as [s e i c sc]. unfold generateEnhancedResponse.
  cbn [Analysis.sentiment Analysis.emotion Analysis.intent Analysis.confidence
       Reply.response Reply.sentiment Reply.emotion Reply.confidence
       Reply.intent].
  split; [|split; [|repeat split]].
  - destruct s, i;
      (eexists; split;
       [vm_compute; reflexivity
       | split; [discriminate | vm_compute; reflexivity]]).
  - intros message' [s' e' i' c' sc'].
    cbn [Analysis.sentiment Analysis.intent].
    destruct s, i, s', i'; vm_compute; intro H;
      first [ split; reflexivity | discriminate H ].
Qed.

Lemma generateEnhancedResponse_witness :
  Analysis.intent
    (Analysis.Build Sentiment.negative Emotion.anxiety Intent.sleep 75
       (Scores.Build (KeywordScore Sentiment.negative (-1))
          (KeywordScore Sentiment.negative (-1))
          (KeywordScore Sentiment.neutral 0)
          (Combined.Build Sentiment.negative (2 # 3))))
  = Analysis.intent
      (Analysis.Build Sentiment.negative Emotion.depression Intent.sleep 80
         (Scores.Build (KeywordScore Sentiment.negative (-1))
            (KeywordScore Sentiment.negative (-1))
            (KeywordScore Sentiment.neutral 0)
            (Combined.Build Sentiment.negative (2 # 3)))) /\
  Analysis.sentiment
    (Analysis.Build Sentiment.negative Emotion.anxiety Intent.sleep 75
       (Scores.Build (KeywordScore Sentiment.negative (-1))
          (KeywordScore Sentiment.negative (-1))
          (KeywordScore Sentiment.neutral 0)
          (Combined.Build Sentiment.negative (2 # 3))))
  = Analysis.sentiment
      (Analysis.Build Sentiment.negative Emotion.depression Intent.sleep 80
         (Scores.Build (KeywordScore Sentiment.negative (-1))
            (KeywordScore Sentiment.negative (-1))
            (KeywordScore Sentiment.neutral 0)
            (Combined.Build Sentiment.negative (2 # 3)))).
Proof.
  apply (proj1 (proj2 (generateEnhancedResponse_template "I cannot sleep" _))
           "I am so tired").
  reflexivity.
Defined.

Lemma substring_prefix_length (n : nat) (s : string) :
  String.length (substring 0 n s) = Nat.min n (String.length s).
Proof.
  revert s. induction n as [|n IH]; intro s.
  - destruct s; reflexivity.
  - destruct s as [|c s]; [reflexivity|]. cbn [substring String.length Nat.min].
    now rewrite IH.
Qed.

Lemma substring_prefix_all (n : nat) (s : string) :
  (String.length s <= n)%nat -> substring 0 n s = s.
Proof.
  revert s. induction n as [|n IH]; intros s H.
  - destruct s; [reflexivity | cbn in H; lia].
  - destruct s as [|c s]; [reflexivity|]. cbn [substring].
    rewrite IH; [reflexivity | cbn in H; lia].
Qed.

Lemma append_length (s t : string) :
  String.length (s ++ t) = (String.length s + String.length t)%nat.
Proof.
  induction s as [|c s IH]; [reflexivity|]. cbn [append String.length].
  now rewrite IH.
Qed.

Lemma append_empty (s : string) : (s ++ "")%string = s.
Proof. induction s as [|c s IH]; [reflexivity|]. cbn [append]. now rewrite IH. Qed.

(** X18.  The title of a new conversation is the message itself when the
    message has at most 50 characters, and otherwise its first 50 characters
    followed by three dots, 53 characters in all; so a title never has more
    than 53 characters. *)
Theorem conversation_title_length (message : string) :
  (String.length (conversation_title message) <= 53)%nat /\
  ((String.length message <= 50)%nat -> conversation_title message = message) /\
  ((50 < String.length message)%nat ->
   conversation_title message = (substring 0 50 message ++ "...")%string /\
   String.length (conversation_title message) = 53%nat).
Proof.
  unfold conversation_title.
  destruct (Nat.ltb_spec 50 (String.length message)) as [Hlong | Hshort].
  - rewrite append_length, substring_prefix_length.
    change (String.length "...") with 3%nat.
    split; [lia|]. split; [lia|]. intros _. split; [reflexivity | lia].
  - rewrite append_empty, substring_prefix_all by exact Hshort.
    split; [lia|]. split; [reflexivity | lia].
Qed.

Lemma conversation_title_witness :
  conversation_title
    "I have been feeling anxious and overwhelmed at work for weeks now"
  = (substring 0 50
       "I have been feeling anxious and overwhelmed at work for weeks now"
     ++ "...")%string /\
  String.length
    (conversation_title
       "I have been feeling anxious and overwhelmed at work for weeks now")
  = 53%nat.
Proof.
  apply (proj2 (proj2 (conversation_title_length
    "I have been feeling anxious and overwhelmed at work for weeks now"))).
  vm_compute. lia.
Defined.

(** ** Distributions and dominant labels *)

Section CountProperties.
Context {K : Type} (eqb : K -> K -> bool).
Hypothesis eqb_eq : forall a b, eqb a b = true <-> a = b.

Lemma get_set_same {V : Type} (o : obj (K := K) (V := V)) (k : K) (v : V) :
  get eqb (set eqb o k v) k = Some v.
Proof.
  induction o as [|[k' v'] o IH]; cbn [set get].
  - now rewrite (eqb_refl_true eqb eqb_eq).
  - destruct (eqb k k') eqn:E; cbn [get]; rewrite ?E; auto.
    now rewrite (eqb_refl_true eqb eqb_eq).
Qed.

Lemma get_set_other {V : Type} (o : obj (K := K) (V := V)) (k k' : K) (v : V) :
  k' <> k -> get eqb (set eqb o k v) k' = get eqb o k'.
Proof.
  intro Hne. induction o as [|[k0 v0] o IH]; cbn [set get].
  - now rewrite (eqb_neq_false eqb eqb_eq k' k Hne).
  - destruct (eqb k k0) eqn:E; cbn [get].
    + apply eqb_eq in E. subst k0.
      now rewrite (eqb_neq_false eqb eqb_eq k' k Hne).
    + destruct (eqb k' k0); auto.
Qed.

Lemma get_Some_in {V : Type} (o : obj (K := K) (V := V)) (k : K) (v : V) :
  get eqb o k = Some v -> In (k, v) o.
Proof.
  induction o as [|[k' v'] o IH]; cbn [get]; [discriminate|].
  destruct (eqb k k') eqn:E.
  - apply eqb_eq in E. intro H. injection H as ->. subst. now left.
  - intro H. right. now apply IH.
Qed.

Lemma in_keys_set {V : Type} (o : obj (K := K) (V := V)) (k x : K) (v : V) :
  In x (keys (set eqb o k v)) -> x = k \/ In x (keys o).
Proof.
  induction o as [|[k' v'] o IH]; cbn [set keys map fst In].
  - intros [<- | []]. now left.
  - destruct (eqb k k') eqn:E; cbn [map fst In].
    + apply eqb_eq in E. subst k'. intros [<- | H]; auto.
    + intros [<- | H]; auto. destruct (IH H); auto.
Qed.

Lemma set_keys_NoDup {V : Type} (o : obj (K := K) (V := V)) (k : K) (v : V) :
  NoDup (keys o) -> NoDup (keys (set eqb o k v)).
Proof.
  induction o as [|[k' v'] o IH]; cbn [set keys map fst]; intro Hnd.
  - repeat constructor. intros [].
  - inversion Hnd as [|? ? Hnotin Hnd']; subst.
    destruct (eqb k k') eqn:E; cbn [map fst].
    + apply eqb_eq in E. subst k'. now constructor.
    + constructor; [|now apply IH].
      intro Hin. apply in_keys_set in Hin. destruct Hin as [-> | Hin].
      * rewrite (eqb_refl_true eqb eqb_eq) in E. discriminate.
      * contradiction.
Qed.

Lemma countOccurrences_from_NoDup (arr : list K)
      (acc : obj (K := K) (V := Z)) :
  NoDup (keys acc) ->
  NoDup (keys (fold_left
                 (fun acc val =>
                    set eqb acc val (or_zero (get eqb acc val) + 1))
                 arr acc)).
Proof.
  revert acc. induction arr as [|x arr IH]; intros acc Hnd; [exact Hnd|].
  cbn [fold_left]. apply IH. now apply set_keys_NoDup.
Qed.

Lemma countOccurrences_from_get (arr : list K) (acc : obj (K := K) (V := Z))
      (k : K) :
  get eqb (fold_left
             (fun acc val => set eqb acc val (or_zero (get eqb acc val) + 1))
             arr acc) k
  = match get eqb acc k with
    | Some n => Some (n + occurrences eqb k arr)
    | None => if occurrences eqb k arr =? 0 then None
              else Some (occurrences eqb k arr)
    end.
Proof.
  revert acc. induction arr as [|x arr IH]; intro acc.
  - cbn [fold_left]. unfold occurrences. cbn.
    destruct (get eqb acc k); [f_equal; lia | reflexivity].
  - cbn [fold_left]. rewrite IH. unfold occurrences. cbn [filter].
    destruct (eqb k x) eqn:E.
    + apply eqb_eq in E. subst x. rewrite get_set_same.
      cbn [List.length]. destruct (get eqb acc k); cbn [or_zero].
      * f_equal. lia.
      * destruct (Z.eqb_spec (Z.of_nat (S (List.length (filter (eqb k) arr)))) 0);
          [lia | f_equal; lia].
    + rewrite get_set_other; [reflexivity|].
      intro Heq. subst x. rewrite (eqb_refl_true eqb eqb_eq) in E.
      discriminate.
Qed.

Lemma countOccurrences_get (arr : list K) (k : K) :
  get eqb (countOccurrences eqb arr) k
  = if occurrences eqb k arr =? 0 then None
    else Some (occurrences eqb k arr).
Proof. unfold countOccurrences. now rewrite countOccurrences_from_get. Qed.

Lemma total_set_incr (o : obj (K := K) (V := Z)) (k : K) :
  total (set eqb o k (or_zero (get eqb o k) + 1)) = total o + 1.
Proof.
  induction o as [|[k' v'] o IH]; cbn [set get]; [reflexivity|].
  destruct (eqb k k'); cbn [total fold_right snd or_zero].
  - fold (total o). lia.
  - fold (total o) (total (set eqb o k (or_zero (get eqb o k) + 1))).
    rewrite IH. lia.
Qed.

Lemma countOccurrences_from_total (arr : list K)
      (acc : obj (K := K) (V := Z)) :
  total (fold_left
           (fun acc val => set eqb acc val (or_zero (get eqb acc val) + 1))
           arr acc)
  = total acc + Z.of_nat (List.length arr).
Proof.
  revert acc. induction arr as [|x arr IH]; intro acc.
  - cbn [fold_left List.length Z.of_nat]. lia.
  - cbn [fold_left List.length]. rewrite IH, total_set_incr. lia.
Qed.

Lemma occurrences_positive_in (arr : list K) (k : K) :
  occurrences eqb k arr <> 0 -> In k arr.
Proof.
  unfold occurrences. intro H.
  destruct (filter (eqb k) arr) as [|x l] eqn:E; [cbn in H; lia|].
  assert (Hin : In x (filter (eqb k) arr)) by (rewrite E; now left).
  apply filter_In in Hin. destruct Hin as [Hin Hx].
  apply eqb_eq in Hx. now subst.
Qed.

(** The dominant label of a non-empty array is one of its most frequent
    elements. *)
Lemma getDominant_most_frequent (arr : list K) :
  arr <> [] ->
  exists k,
    getDominant eqb (countOccurrences eqb arr) = Ok k /\
    In k arr /\
    forall k', occurrences eqb k' arr <= occurrences eqb k arr.
Proof.
  intro Hne.
  assert (Hnd : NoDup (keys (countOccurrences eqb arr))).
  { unfold countOccurrences. apply countOccurrences_from_NoDup. constructor. }
  pose proof (countOccurrences_nonempty eqb arr Hne) as Hcounts.
  destruct (reduce_higher_last_max eqb eqb_eq _ Hnd Hcounts)
    as ([k v] & Hbest & before & after & Hsplit & Hbefore & Hafter).
  exists k. unfold getDominant. rewrite Hbest. cbn [bind fst].
  split; [reflexivity|].
  assert (Hin : In (k, v) (countOccurrences eqb arr)).
  { rewrite Hsplit. apply in_or_app. right. now left. }
  pose proof (get_in eqb eqb_eq _ _ _ Hnd Hin) as Hget.
  rewrite countOccurrences_get in Hget.
  destruct (Z.eqb_spec (occurrences eqb k arr) 0) as [|Hpos];
    [discriminate|]. injection Hget as Hv.
  split; [now apply occurrences_positive_in|].
  intro k'. destruct (Z.eqb_spec (occurrences eqb k' arr) 0) as [Hzero | Hpos'].
  - rewrite Hzero. unfold occurrences in *. lia.
  - assert (Hin' : In (k', occurrences eqb k' arr) (countOccurrences eqb arr)).
    { apply get_Some_in. rewrite countOccurrences_get.
      destruct (Z.eqb_spec (occurrences eqb k' arr) 0); [contradiction|].
      reflexivity. }
    rewrite Hsplit in Hin'. apply in_app_or in Hin'.
    rewrite Forall_forall in Hbefore, Hafter. cbn [snd] in *.
    destruct Hin' as [Hin' | [Heq | Hin']].
    + specialize (Hbefore _ Hin'). cbn [snd] in Hbefore. lia.
    + injection Heq as <- _. lia.
    + specialize (Hafter _ Hin'). cbn [snd] in Hafter. lia.
Qed.
End CountProperties.

(** X19.  The distribution [countOccurrences] builds from an array of
    sentiment labels, or of emotion labels, has one entry per label that
    occurs, holding the number of its occurrences, no entry for a label that
    does not occur, and counters that add up to the length of the array. *)
Theorem countOccurrences_is_the_histogram :
  (forall (arr : list Sentiment.t) (k : Sentiment.t),
      get Sentiment.eqb (countOccurrences Sentiment.eqb arr) k
      = (if occurrences Sentiment.eqb k arr =? 0 then None
         else Some (occurrences Sentiment.eqb k arr)) /\
      NoDup (keys (countOccurrences Sentiment.eqb arr)) /\
      total (countOccurrences Sentiment.eqb arr) = Z.of_nat (List.length arr)) /\
  (forall (arr : list Emotion.t) (k : Emotion.t),
      get Emotion.eqb (countOccurrences Emotion.eqb arr) k
      = (if occurrences Emotion.eqb k arr =? 0 then None
         else Some (occurrences Emotion.eqb k arr)) /\
      NoDup (keys (countOccurrences Emotion.eqb arr)) /\
      total (countOccurrences Emotion.eqb arr) = Z.of_nat (List.length arr)).
Proof.
  split; intros arr k; (split; [|split]).
  - apply (countOccurrences_get Sentiment.eqb sentiment_eqb_eq).
  - apply (countOccurrences_from_NoDup Sentiment.eqb sentiment_eqb_eq).
    constructor.
  - unfold countOccurrences.
    now rewrite (countOccurrences_from_total Sentiment.eqb).
  - apply (countOccurrences_get Emotion.eqb emotion_eqb_eq).
  - apply (countOccurrences_from_NoDup Emotion.eqb emotion_eqb_eq).
    constructor.
  - unfold countOccurrences.
    now rewrite (countOccurrences_from_total Emotion.eqb).
Qed.

(** X20.  On the distribution of a non-empty array of sentiment labels, or
    of emotion labels, [getDominant] returns a label of the array that
    occurs at least as often as every other label. *)
Theorem getDominant_is_most_frequent :
  (forall arr : list Sentiment.t,
      arr <> [] ->
      exists k,
        getDominant Sentiment.eqb (countOccurrences Sentiment.eqb arr) = Ok k /\
        In k arr /\
        forall k', occurrences Sentiment.eqb k' arr
                   <= occurrences Sentiment.eqb k arr) /\
  (forall arr : list Emotion.t,
      arr <> [] ->
      exists k,
        getDominant Emotion.eqb (countOccurrences Emotion.eqb arr) = Ok k /\
        In k arr /\
        forall k', occurrences Emotion.eqb k' arr
                   <= occurrences Emotion.eqb k arr).
Proof.
  split; intros arr Hne.
  - exact (getDominant_most_frequent Sentiment.eqb sentiment_eqb_eq arr Hne).
  - exact (getDominant_most_frequent Emotion.eqb emotion_eqb_eq arr Hne).
Qed.

Lemma getDominant_witness :
  exists k,
    getDominant Emotion.eqb
      (countOccurrences Emotion.eqb
         [Emotion.anxiety; Emotion.anxiety; Emotion.happiness]) = Ok k /\
    In k [Emotion.anxiety; Emotion.anxiety; Emotion.happiness] /\
    forall k',
      occurrences Emotion.eqb k'
        [Emotion.anxiety; Emotion.anxiety; Emotion.happiness]
      <= occurrences Emotion.eqb k
           [Emotion.anxiety; Emotion.anxiety; Emotion.happiness].
Proof.
  apply (proj2 getDominant_is_most_frequent
           [Emotion.anxiety; Emotion.anxiety; Emotion.happiness]).
  discriminate.
Defined.

(** ** The aggregator and the messages it reads *)

Lemma collect_user_labels_filter (messages : list Message.t) :
  collect_user_labels (filter is_user messages) = collect_user_labels messages.
Proof.
  unfold collect_user_labels. generalize (@Ok (list Sentiment.t * list Emotion.t) ([], [])).
  induction messages as [|m messages IH]; intro state; [reflexivity|].
  cbn [filter fold_left]. unfold is_user at 1.
  destruct (String.eqb (Message.sender_type m) "user") eqn:E.
  - cbn [fold_left]. rewrite E. apply IH.
  - rewrite IH. f_equal. destruct state as [[ss es] | err]; reflexivity.
Qed.

Lemma collect_user_labels_lengths (messages : list Message.t)
      (sentiments : list Sentiment.t) (emotions : list Emotion.t) :
  exists sentiments' emotions',
    fold_left
      (fun state message =>
         arrays <- state ;;
         let '(sentiments, emotions) := arrays in
         if String.eqb (Message.sender_type message) "user" then
           analysis <- analyzeSentiment (Message.content message) ;;
           Ok (sentiments ++ [Analysis.sentiment analysis],
               emotions ++ [Analysis.emotion analysis])%list
         else Ok (sentiments, emotions))
      messages (Ok (sentiments, emotions))
    = Ok ((sentiments ++ sentiments')%list, (emotions ++ emotions')%list) /\
    List.length sentiments' = List.length (filter is_user messages) /\
    List.length emotions' = List.length (filter is_user messages).
Proof.
  revert sentiments emotions.
  induction messages as [|m messages IH]; intros sentiments emotions.
  - exists [], []. cbn. rewrite !app_nil_r. auto.
  - cbn [fold_left filter bind].
    change (is_user m) with (String.eqb (Message.sender_type m) "user").
    destruct (String.eqb (Message.sender_type m) "user") eqn:E.
    + destruct (analyzeSentiment_returns (Message.content m)) as (e & i & Ha).
      cbv zeta in Ha. rewrite Ha. cbn [bind Analysis.sentiment Analysis.emotion].
      match goal with
      | |- context [Ok ((sentiments ++ [?s])%list, (emotions ++ [?e'])%list)] =>
          destruct (IH (sentiments ++ [s])%list (emotions ++ [e'])%list)
            as (ss & es & Hfold & Hss & Hes);
          exists (s :: ss), (e' :: es)
      end.
      rewrite Hfold, <- !app_assoc. cbn [app List.length].
      rewrite Hss, Hes. auto.
    + destruct (IH sentiments emotions) as (ss & es & Hfold & Hss & Hes).
      exists ss, es. auto.
Qed.

(** X21.  When a list of messages holds at least one user-authored message,
    the aggregator returns a trend; the trend has the same distributions and
    dominant labels as the trend of the user-authored messages alone, its
    message count is the length of the whole list (bot messages included),
    and the counters of each distribution add up to the number of
    user-authored messages. *)
Theorem aggregate_ignores_bot_messages (messages : list Message.t) :
  existsb is_user messages = true ->
  exists t t',
    analyzeConversationHistory messages = Ok (Some t) /\
    analyzeConversationHistory (filter is_user messages) = Ok (Some t') /\
    Trend.sentiment_distribution t = Trend.sentiment_distribution t' /\
    Trend.emotion_distribution t = Trend.emotion_distribution t' /\
    Trend.dominant_sentiment t = Trend.dominant_sentiment t' /\
    Trend.dominant_emotion t = Trend.dominant_emotion t' /\
    Trend.message_count t = Z.of_nat (List.length messages) /\
    Trend.message_count t'
    = Z.of_nat (List.length (filter is_user messages)) /\
    total (Trend.sentiment_distribution t)
    = Z.of_nat (List.length (filter is_user messages)) /\
    total (Trend.emotion_distribution t)
    = Z.of_nat (List.length (filter is_user messages)).
Proof.
  intro Hsome.
  assert (Husers : filter is_user messages <> []).
  { apply existsb_exists in Hsome. destruct Hsome as (m & Hin & Hm).
    intro Hnil. assert (Hf : In m (filter is_user messages))
      by (apply filter_In; auto).
    rewrite Hnil in Hf. contradiction. }
  assert (Hmessages : messages <> []).
  { intro Hnil. subst. discriminate. }
  destruct (collect_user_labels_lengths messages [] [])
    as (ss & es & Hfold & Hss & Hes).
  fold (collect_user_labels messages) in Hfold. cbn [app] in Hfold.
  assert (Hss' : ss <> []).
  { intro Hnil. subst ss. destruct (filter is_user messages);
      [congruence | discriminate]. }
  assert (Hes' : es <> []).
  { intro Hnil. subst es. destruct (filter is_user messages);
      [congruence | discriminate]. }
  destruct (getDominant_nonempty Sentiment.eqb _
              (countOccurrences_nonempty Sentiment.eqb ss Hss')) as (ds & Hds).
  destruct (getDominant_nonempty Emotion.eqb _
              (countOccurrences_nonempty Emotion.eqb es Hes')) as (de & Hde).
  unfold analyzeConversationHistory.
  rewrite collect_user_labels_filter, Hfold.
  destruct messages as [|m messages]; [congruence|].
  destruct (filter is_user (m :: messages)) as [|u users] eqn:Ef; [congruence|].
  cbn [List.length Nat.eqb bind]. rewrite Hds. cbn [bind]. rewrite Hde.
  cbn [bind]. do 2 eexists.
  split; [reflexivity|]. split; [reflexivity|].
  cbn [Trend.sentiment_distribution Trend.emotion_distribution
       Trend.dominant_sentiment Trend.dominant_emotion Trend.message_count].
  repeat (split; [reflexivity|]).
  unfold countOccurrences.
  rewrite (countOccurrences_from_total Sentiment.eqb),
          (countOccurrences_from_total Emotion.eqb), Hss, Hes.
  cbn [total fold_right List.length]. split; lia.
Qed.

Lemma aggregate_ignores_bot_messages_witness :
  exists t t',
    analyzeConversationHistory
      [Message.Build "user" "I feel sad"; Message.Build "bot" "I am here";
       Message.Build "user" "I am happy"] = Ok (Some t) /\
    analyzeConversationHistory
      (filter is_user
         [Message.Build "user" "I feel sad"; Message.Build "bot" "I am here";
          Message.Build "user" "I am happy"]) = Ok (Some t') /\
    Trend.sentiment_distribution t = Trend.sentiment_distribution t' /\
    Trend.emotion_distribution t = Trend.emotion_distribution t' /\
    Trend.dominant_sentiment t = Trend.dominant_sentiment t' /\
    Trend.dominant_emotion t = Trend.dominant_emotion t' /\
    Trend.message_count t
    = Z.of_nat
        (List.length
           [Message.Build "user" "I feel sad"; Message.Build "bot" "I am here";
            Message.Build "user" "I am happy"]) /\
    Trend.message_count t'
    = Z.of_nat
        (List.length
           (filter is_user
              [Message.Build "user" "I feel sad";
               Message.Build "bot" "I am here";
               Message.Build "user" "I am happy"])) /\
    total (Trend.sentiment_distribution t)
    = Z.of_nat
        (List.length
           (filter is_user
              [Message.Build "user" "I feel sad";
               Message.Build "bot" "I am here";
               Message.Build "user" "I am happy"])) /\
    total (Trend.emotion_distribution t)
    = Z.of_nat
        (List.length
           (filter is_user
              [Message.Build "user" "I feel sad";
               Message.Build "bot" "I am here";
               Message.Build "user" "I am happy"])).
Proof.
  apply (aggregate_ignores_bot_messages
           [Message.Build "user" "I feel sad"; Message.Build "bot" "I am here";
            Message.Build "user" "I am happy"]).
  reflexivity.
Defined.

(** X22.  Every non-empty list of messages without a user-authored message
    makes the aggregator throw the TypeError of [reduce] on an empty
    array. *)
Theorem aggregate_of_bot_messages_throws (messages : list Message.t) :
  messages <> [] -> existsb is_user messages = false ->
  analyzeConversationHistory messages
  = Throw (TypeError "Reduce of empty array with no initial value").
Proof.
  intros Hne Hnone. unfold analyzeConversationHistory.
  destruct (collect_user_labels_lengths messages [] [])
    as (ss & es & Hfold & Hss & Hes).
  fold (collect_user_labels messages) in Hfold. cbn [app] in Hfold.
  assert (Hnil : filter is_user messages = []).
  { clear - Hnone. induction messages as [|m messages IH]; [reflexivity|].
    cbn [existsb filter] in *. apply orb_false_iff in Hnone.
    destruct Hnone as [-> Hnone]. now apply IH. }
  rewrite Hnil in Hss, Hes.
  destruct ss; [|discriminate]. destruct es; [|discriminate].
  destruct messages as [|m messages]; [congruence|].
  cbn [List.length Nat.eqb]. rewrite Hfold. reflexivity.
Qed.

Lemma aggregate_of_bot_messages_witness :
  analyzeConversationHistory
    [Message.Build "bot" "I am here"; Message.Build "system" "joined"]
  = Throw (TypeError "Reduce of empty array with no initial value").
Proof.
  apply aggregate_of_bot_messages_throws; [discriminate | reflexivity].
Defined.

(** ** From a text to its crisis flag *)

(** X23.  The analyzer sees a text only through its cleaned form: a text and
    its cleaned form get the same analysis, so case, digits, punctuation and
    extra white space never change the result. *)
Theorem analyzeSentiment_of_cleaned_text (text : string) :
  analyzeSentiment (cleanText text) = analyzeSentiment text.
Proof.
  apply analyzeSentiment_cleanText. apply tidy_cleanText. unfold tidy.
  destruct (cleanText_spaced text) as [-> ->]. reflexivity.
Qed.

Lemma unanimous_analysis (text : string) (label : Sentiment.t) :
  sentiment_of (vaderSentiment (cleanText text)) = label ->
  sentiment_of (keywordSentiment (cleanText text)) = label ->
  sentiment_of (patternSentiment (cleanText text)) = label ->
  exists e i sc,
    analyzeSentiment text
    = Ok (Analysis.Build label e i
            (calculateConfidence
               (Combined.Build label (inject_Z 3 / inject_Z 3)) e i)
            sc).
Proof.
  intros Hv Hk Hp.
  destruct (analyzeSentiment_returns text) as (e & i & Ha). cbv zeta in Ha.
  assert (Hc : combineSentiments
                 [vaderSentiment (cleanText text);
                  keywordSentiment (cleanText text);
                  patternSentiment (cleanText text)]
               = Combined.Build label (inject_Z 3 / inject_Z 3)).
  { unfold combineSentiments. cbn [fold_left List.length].
    rewrite Hv, Hk, Hp. destruct label; reflexivity. }
  rewrite Hc in Ha. cbn [Combined.sentiment] in Ha.
  do 3 eexists. exact Ha.
Qed.

(** X24.  Every text on which the three scorers agree has a crisis level
    above 0, so that the handler's test for storing a flag succeeds, whatever
    the label they agree on: the confidence is 100, which alone adds 2 to the
    level, so the level is at least 1 when they agree on positive and at
    least 2 otherwise. *)
Theorem unanimous_text_is_flagged (text : string) (label : Sentiment.t) :
  sentiment_of (vaderSentiment (cleanText text)) = label ->
  sentiment_of (keywordSentiment (cleanText text)) = label ->
  sentiment_of (patternSentiment (cleanText text)) = label ->
  exists a,
    analyzeSentiment text = Ok a /\
    1 <= detectCrisisLevel a /\
    (label <> Sentiment.positive -> 2 <= detectCrisisLevel a) /\
    crisis_flag_type (detectCrisisLevel a) <> None.
Proof.
  intros Hv Hk Hp.
  destruct (unanimous_analysis text label Hv Hk Hp) as (e & i & sc & Ha).
  eexists. split; [exact Ha|].
  unfold detectCrisisLevel.
  cbn [Analysis.sentiment Analysis.emotion Analysis.intent Analysis.confidence].
  destruct label, e, i; vm_compute;
    (split; [discriminate|]);
    (split; [intro H; try discriminate; exfalso; apply H; reflexivity
            | discriminate]).
Qed.

Lemma unanimous_text_is_flagged_witness :
  exists a,
    analyzeSentiment "I am happy and grateful" = Ok a /\
    1 <= detectCrisisLevel a /\
    (Sentiment.positive <> Sentiment.positive -> 2 <= detectCrisisLevel a) /\
    crisis_flag_type (detectCrisisLevel a) <> None.
Proof.
  apply (unanimous_text_is_flagged "I am happy and grateful"
           Sentiment.positive); reflexivity.
Defined.


